(** * Horovod Spark / PyTorch estimator: a shallow embedding

    Source files embedded here:
      - [horovod/spark/common/params.py]   ([EstimatorParams], [ModelParams])
      - [horovod/spark/torch/estimator.py] ([TorchEstimator], [TorchModel],
        the parameter (de)serialisers).

    Python objects are represented by a small universe of values, exceptions
    by an error type, and every call that leaves the two source files
    (the store, the execution backend, data preparation, the clock) is
    recorded in a trace and answered by an environment. *)

From Stdlib Require Import ZArith QArith Qabs String Ascii List Bool Lia.
From Stdlib Require Import DecimalString.
From stdpp Require Import gmap strings list fin_maps.

Set Warnings "-register-all".
Close Scope Q_scope.
Open Scope Z_scope.
Open Scope string_scope.

(** ** Python values *)

Module Py.

(** A Python [float]: a finite float is represented by the rational number
    it denotes. *)
Inductive pyfloat :=
| FFinite (q : Q)
| FInf (negative : bool)
| FNaN.

(** An object the embedding does not look into (a model, a store, a backend,
    a dataframe ...).  [obj_truth] is what [bool(o)] answers, that is the
    result of [__bool__] or of [__len__] when the class defines one. *)
Record object := {
  obj_class : string;
  obj_id : nat;
  obj_truth : bool
}.

Inductive value :=
| VNone
| VBool (b : bool)
| VInt (n : Z)
| VFloat (x : pyfloat)
| VStr (s : string)
| VList (vs : list value)
| VTuple (vs : list value)
| VDict (kvs : list (string * value))
| VClass (name : string)
| VObj (o : object)
| VDenseVector (xs : list pyfloat)
| VSparseVector (size : Z) (indices : list Z) (xs : list pyfloat).

Inductive exn :=
| ValueError (msg : string)
| TypeError (msg : string)
| KeyError (key : string)
| AttributeError (msg : string)
| IndexError (msg : string)
| OverflowError (msg : string)
| RuntimeError (msg : string)
| OtherError (cls : string) (msg : string).

Inductive result (A : Type) :=
| Ok (a : A)
| Raise (e : exn).
Arguments Ok {A} a.
Arguments Raise {A} e.

Definition rbind {A B} (r : result A) (f : A -> result B) : result B :=
  match r with
  | Ok a => f a
  | Raise e => Raise e
  end.

(** [x is None] *)
Definition is_None (v : value) : bool :=
  match v with VNone => true | _ => false end.

Definition float_nonzero (x : pyfloat) : bool :=
  match x with
  | FFinite q => negb (Z.eqb (Qnum q) 0)
  | FInf _ => true
  | FNaN => true
  end.

(** [bool(v)], the test made by [if v:] and [not v]. *)
Definition truthy (v : value) : bool :=
  match v with
  | VNone => false
  | VBool b => b
  | VInt n => negb (Z.eqb n 0)
  | VFloat x => float_nonzero x
  | VStr s => negb (String.eqb s "")
  | VList vs => match vs with [] => false | _ => true end
  | VTuple vs => match vs with [] => false | _ => true end
  | VDict kvs => match kvs with [] => false | _ => true end
  | VClass _ => true
  | VObj o => obj_truth o
  | VDenseVector xs => match xs with [] => false | _ => true end
  | VSparseVector size _ _ => negb (Z.eqb size 0)
  end.

(** [isinstance(v, list) or isinstance(v, tuple)] *)
Definition is_list_or_tuple (v : value) : bool :=
  match v with
  | VList _ | VTuple _ => true
  | _ => false
  end.

(** Iteration, as done by a comprehension or by tuple unpacking. *)
Definition iterate (v : value) : result (list value) :=
  match v with
  | VList vs | VTuple vs => Ok vs
  | VStr s => Ok (map (fun c => VStr (String c EmptyString)) (list_ascii_of_string s))
  | VDict kvs => Ok (map (fun kv => VStr (fst kv)) kvs)
  | _ => Raise (TypeError "object is not iterable")
  end.

(** [a + b] on the operands the embedded code adds. *)
Definition py_add (a b : value) : result value :=
  match a, b with
  | VStr s, VStr s' => Ok (VStr (s ++ s'))
  | VInt n, VInt n' => Ok (VInt (n + n'))
  | VList l, VList l' => Ok (VList (l ++ l'))
  | VTuple l, VTuple l' => Ok (VTuple (l ++ l'))
  | _, _ => Raise (TypeError "unsupported operand type(s) for +")
  end.

(** ** Insertion-ordered dictionaries with string keys

    Used for keyword arguments and for the dictionaries the code iterates
    over; a well-formed dictionary has no repeated key. *)

Definition dict := list (string * value).

Fixpoint dict_get (k : string) (d : dict) : option value :=
  match d with
  | [] => None
  | (k', v) :: d' => if String.eqb k k' then Some v else dict_get k d'
  end.

Definition dict_mem (k : string) (d : dict) : bool :=
  match dict_get k d with Some _ => true | None => false end.

(** [d[k] = v]: overwrite in place, or append a new key. *)
Fixpoint dict_set (k : string) (v : value) (d : dict) : dict :=
  match d with
  | [] => [(k, v)]
  | (k', v') :: d' =>
      if String.eqb k k' then (k', v) :: d' else (k', v') :: dict_set k v d'
  end.

Definition dict_keys (d : dict) : list string := map fst d.

Fixpoint nodup_keys (ks : list string) : bool :=
  match ks with
  | [] => true
  | k :: ks' => negb (existsb (String.eqb k) ks') && nodup_keys ks'
  end.

(** [d[k]] *)
Definition subscript_dict (d : value) (k : string) : result value :=
  match d with
  | VDict kvs =>
      match dict_get k kvs with
      | Some v => Ok v
      | None => Raise (KeyError k)
      end
  | _ => Raise (TypeError "object is not subscriptable")
  end.

(** ** Rounding and casts *)

(** [round(x)] of Python 3 on a float: the nearest integer, ties going to
    the even one. *)
Definition round_half_even (q : Q) : Z :=
  let n := Qnum q in
  let d := Zpos (Qden q) in
  let f := n / d in
  let r := n mod d in
  match 2 * r ?= d with
  | Lt => f
  | Gt => f + 1
  | Eq => if Z.even f then f else f + 1
  end.

(** [int(x)] on a float truncates towards zero. *)
Definition truncate (q : Q) : Z := Z.quot (Qnum q) (Zpos (Qden q)).

Definition py_round (v : value) : result value :=
  match v with
  | VInt n => Ok (VInt n)
  | VBool b => Ok (VInt (if b then 1 else 0))
  | VFloat (FFinite q) => Ok (VInt (round_half_even q))
  | VFloat (FInf _) => Raise (OverflowError "cannot convert float infinity to integer")
  | VFloat FNaN => Raise (ValueError "cannot convert float NaN to integer")
  | _ => Raise (TypeError "type doesn't define __round__ method")
  end.

Definition py_int (v : value) : result value :=
  match v with
  | VInt n => Ok (VInt n)
  | VBool b => Ok (VInt (if b then 1 else 0))
  | VFloat (FFinite q) => Ok (VInt (truncate q))
  | VFloat (FInf _) => Raise (OverflowError "cannot convert float infinity to integer")
  | VFloat FNaN => Raise (ValueError "cannot convert float NaN to integer")
  | _ => Raise (TypeError "int() argument must be a string or a number")
  end.

(** [float(n)] on an integer: the nearest double, ties to even. *)
Definition float_of_int (n : Z) : result pyfloat :=
  let a := Z.abs n in
  if Z.ltb a (2 ^ 53) then Ok (FFinite (inject_Z n))
  else
    let k := Z.log2 a - 52 in
    let m := round_half_even (Qmake a (Z.to_pos (2 ^ k))) in
    let r := m * 2 ^ k in
    if Z.ltb r (2 ^ 1024) then Ok (FFinite (inject_Z (Z.sgn n * r)))
    else Raise (OverflowError "int too large to convert to float").

Definition py_float (v : value) : result value :=
  match v with
  | VFloat x => Ok (VFloat x)
  | VInt n => rbind (float_of_int n) (fun x => Ok (VFloat x))
  | VBool b => Ok (VFloat (FFinite (if b then 1%Q else 0%Q)))
  | _ => Raise (TypeError "float() argument must be a string or a number")
  end.

(** [v > 0] in Python 3. *)
Definition py_gt_zero (v : value) : result bool :=
  match v with
  | VInt n => Ok (Z.ltb 0 n)
  | VBool b => Ok b
  | VFloat (FFinite q) => Ok (Z.ltb 0 (Qnum q))
  | VFloat (FInf negative) => Ok (negb negative)
  | VFloat FNaN => Ok false
  | _ => Raise (TypeError "'>' not supported between these instances")
  end.

(** [str(n)] on an integer. *)
Definition str_of_int (n : Z) : string :=
  NilZero.string_of_int (Z.to_int n).

End Py.
Export Py.

(** ** The parameter container of pyspark.ml

    [Params], [Param] and [TypeConverters] belong to pyspark; the part the
    two source files rely on is modelled here: the two maps of a [Params]
    instance, [_set], [_setDefault], [getOrDefault] and the converters that
    [params.py] attaches to its parameters. *)

Module Pyspark.

Inductive converter :=
| identity
| toListFloat
| toString
| toListString
| toInt
| toFloat.

Definition dquote : string := String (ascii_of_nat 34) EmptyString.

(** [TypeConverters._is_numeric]: the exact types [int] and [float]. *)
Definition _is_numeric (v : value) : bool :=
  match v with
  | VInt _ | VFloat _ => true
  | _ => false
  end.

Definition _can_convert_to_string (v : value) : bool :=
  match v with
  | VStr _ => true
  | _ => false
  end.

Definition float_is_integer (x : pyfloat) : bool :=
  match x with
  | FFinite q => Z.eqb (Qnum q mod Zpos (Qden q)) 0
  | _ => false
  end.

(** The array a [SparseVector] stands for. *)
Fixpoint sparse_lookup (i : Z) (indices : list Z) (xs : list pyfloat) : pyfloat :=
  match indices, xs with
  | j :: indices', x :: xs' => if Z.eqb i j then x else sparse_lookup i indices' xs'
  | _, _ => FFinite 0%Q
  end.

Definition sparse_toArray (size : Z) (indices : list Z) (xs : list pyfloat) : list pyfloat :=
  map (fun i => sparse_lookup (Z.of_nat i) indices xs) (seq 0 (Z.to_nat size)).

Definition toList_conv (v : value) : result (list value) :=
  match v with
  | VList vs => Ok vs
  | VTuple vs => Ok vs
  | VDenseVector xs => Ok (map VFloat xs)
  | VSparseVector size indices xs => Ok (map VFloat (sparse_toArray size indices xs))
  | _ => Raise (TypeError "Could not convert value to list")
  end.

Fixpoint result_map {A B} (f : A -> result B) (l : list A) : result (list B) :=
  match l with
  | [] => Ok []
  | a :: l' =>
      rbind (f a) (fun b => rbind (result_map f l') (fun bs => Ok (b :: bs)))
  end.

Definition convert (c : converter) (v : value) : result value :=
  match c with
  | identity => Ok v
  | toString =>
      match v with
      | VStr s => Ok (VStr s)
      | _ => Raise (TypeError "Could not convert value to string type")
      end
  | toInt =>
      match v with
      | VInt n => rbind (float_of_int n) (fun _ => Ok (VInt n))
      | VFloat x =>
          if float_is_integer x then py_int (VFloat x)
          else Raise (TypeError "Could not convert value to int")
      | _ => Raise (TypeError "Could not convert value to int")
      end
  | toFloat =>
      if _is_numeric v then py_float v
      else Raise (TypeError "Could not convert value to float")
  | toListFloat =>
      match toList_conv v with
      | Ok vs =>
          if forallb _is_numeric vs
          then rbind (result_map py_float vs) (fun fs => Ok (VList fs))
          else Raise (TypeError "Could not convert value to list of floats")
      | Raise _ => Raise (TypeError "Could not convert value to list of floats")
      end
  | toListString =>
      match toList_conv v with
      | Ok vs =>
          if forallb _can_convert_to_string vs then Ok (VList vs)
          else Raise (TypeError "Could not convert value to list of strings")
      | Raise _ => Raise (TypeError "Could not convert value to list of strings")
      end
  end.

(** A [Params] instance: the [Param] attributes of its class, each with its
    [typeConverter], the values set by the user and the defaults. *)
Record Params := {
  declared : list (string * converter);
  paramMap : gmap string value;
  defaultParamMap : gmap string value
}.

Fixpoint declared_converter (name : string) (ds : list (string * converter))
  : option converter :=
  match ds with
  | [] => None
  | (n, c) :: ds' => if String.eqb name n then Some c else declared_converter name ds'
  end.

(** The [TypeError] that [_set] and [_setDefault] raise again with their own
    message; any other exception goes through unchanged. *)
Definition rewrap (prefix name : string) (e : exn) : exn :=
  match e with
  | TypeError msg =>
      TypeError (prefix ++ dquote ++ name ++ dquote ++ ". " ++ msg)
  | _ => e
  end.

Definition converted (prefix : string) (ds : list (string * converter))
    (name : string) (v : value) : result value :=
  match declared_converter name ds with
  | None => Raise (AttributeError ("object has no attribute " ++ name))
  | Some c =>
      if is_None v then Ok v
      else match convert c v with
           | Ok v' => Ok v'
           | Raise e => Raise (rewrap prefix name e)
           end
  end.

Definition with_param (self : Params) (name : string) (v : value) : Params :=
  {| declared := declared self;
     paramMap := <[name := v]> (paramMap self);
     defaultParamMap := defaultParamMap self |}.

Definition with_default (self : Params) (name : string) (v : value) : Params :=
  {| declared := declared self;
     paramMap := paramMap self;
     defaultParamMap := <[name := v]> (defaultParamMap self) |}.

(** [Params._set], called with keyword arguments. *)
Fixpoint _set (self : Params) (kwargs : dict) : result Params :=
  match kwargs with
  | [] => Ok self
  | (param, v) :: kwargs' =>
      rbind (converted "Invalid param value given for param " (declared self) param v)
            (fun v' => _set (with_param self param v') kwargs')
  end.

(** [Params._setDefault], called with keyword arguments. *)
Fixpoint _setDefault (self : Params) (kwargs : dict) : result Params :=
  match kwargs with
  | [] => Ok self
  | (param, v) :: kwargs' =>
      rbind (converted "Invalid default param value given for param " (declared self) param v)
            (fun v' => _setDefault (with_default self param v') kwargs')
  end.

(** [Params.getOrDefault(param)] *)
Definition getOrDefault (self : Params) (name : string) : result value :=
  match paramMap self !! name with
  | Some v => Ok v
  | None =>
      match defaultParamMap self !! name with
      | Some v => Ok v
      | None => Raise (KeyError name)
      end
  end.

(** [Params.__init__] for a class with the given [Param] attributes. *)
Definition Params_init (ds : list (string * converter)) : Params :=
  {| declared := ds; paramMap := ∅; defaultParamMap := ∅ |}.

(** The [keyword_only] decorator together with Python's own check of a call
    against the signature: every keyword is a parameter of the function and
    appears once. *)
Definition accepts (signature : list string) (kwargs : dict) : bool :=
  forallb (fun k => existsb (String.eqb k) signature) (dict_keys kwargs)
  && nodup_keys (dict_keys kwargs).

End Pyspark.
Export Pyspark.

Notation "x <~ r ;; k" := (rbind r (fun x => k))
  (at level 62, r at next level, k at level 200, right associativity).

(** ** [horovod/spark/common/params.py] *)

Module CommonParams.

(** The [Param] attributes of [EstimatorParams], in the order of the class
    body, with the [typeConverter] each one is given. *)
Definition EstimatorParams_declared : list (string * converter) :=
  [ ("num_proc", identity);
    ("optimizer", identity);
    ("model", identity);
    ("backend", identity);
    ("store", identity);
    ("metrics", identity);
    ("loss", identity);
    ("compression", identity);
    ("loss_weights", toListFloat);
    ("sample_weight_col", toString);
    ("feature_cols", toListString);
    ("label_cols", toListString);
    ("validation_col", toString);
    ("callbacks", identity);
    ("batch_size", toInt);
    ("epochs", identity);
    ("validation_split", toFloat);
    ("shuffle_buffer_size", toInt);
    ("verbose", toInt);
    ("partitions_per_process", toInt);
    ("run_id", toString) ].

(** The keyword arguments of the [_setDefault] call of
    [EstimatorParams.__init__]. *)
Definition EstimatorParams_defaults : dict :=
  [ ("num_proc", VNone);
    ("store", VNone);
    ("backend", VNone);
    ("model", VNone);
    ("optimizer", VNone);
    ("loss", VNone);
    ("loss_weights", VNone);
    ("sample_weight_col", VNone);
    ("metrics", VList []);
    ("feature_cols", VNone);
    ("label_cols", VNone);
    ("validation_col", VNone);
    ("compression", VNone);
    ("batch_size", VInt 32);
    ("epochs", VInt 1);
    ("verbose", VInt 1);
    ("callbacks", VList []);
    ("validation_split", VFloat (FFinite 0%Q));
    ("shuffle_buffer_size", VNone);
    ("partitions_per_process", VInt 10);
    ("run_id", VNone) ].

(** [EstimatorParams.__init__], for a subclass that declares [extra]
    parameters of its own. *)
Definition EstimatorParams_init (extra : list (string * converter)) : result Params :=
  _setDefault (Params_init (EstimatorParams_declared ++ extra)) EstimatorParams_defaults.

(** [setParams] of both classes: [self._set] on the keyword arguments. *)
Definition setParams (self : Params) (kwargs : dict) : result Params :=
  _set self kwargs.

Definition getNumProc (self : Params) := getOrDefault self "num_proc".
Definition getModel (self : Params) := getOrDefault self "model".
Definition getBackend (self : Params) := getOrDefault self "backend".
Definition getStore (self : Params) := getOrDefault self "store".
Definition getLoss (self : Params) := getOrDefault self "loss".
Definition getLossWeights (self : Params) := getOrDefault self "loss_weights".
Definition getSampleWeightCol (self : Params) := getOrDefault self "sample_weight_col".
Definition getMetrics (self : Params) := getOrDefault self "metrics".
Definition getFeatureCols (self : Params) := getOrDefault self "feature_cols".
Definition getLabelCols (self : Params) := getOrDefault self "label_cols".
Definition getValidationCol (self : Params) := getOrDefault self "validation_col".
Definition getCallbacks (self : Params) := getOrDefault self "callbacks".
Definition getBatchSize (self : Params) := getOrDefault self "batch_size".
Definition getEpochs (self : Params) := getOrDefault self "epochs".
Definition getValidationSplit (self : Params) := getOrDefault self "validation_split".
Definition getVerbose (self : Params) := getOrDefault self "verbose".
Definition getCompression (self : Params) := getOrDefault self "compression".
Definition getShufflingBufferSize (self : Params) := getOrDefault self "shuffle_buffer_size".
Definition getPartitionsPerProcess (self : Params) := getOrDefault self "partitions_per_process".
Definition getRunId (self : Params) := getOrDefault self "run_id".

Definition _should_validate (self : Params) : result value :=
  validation_col <~ getValidationCol self ;;
  if negb (is_None validation_col) then Ok (VBool true)
  else
    validation_split <~ getValidationSplit self ;;
    positive <~ py_gt_zero validation_split ;;
    Ok (VBool positive).

Definition setLoss (self : Params) (v : value) := _set self [("loss", v)].
Definition setLossWeights (self : Params) (v : value) := _set self [("loss_weights", v)].
Definition setSampleWeightCol (self : Params) (v : value) :=
  _set self [("sample_weight_col", v)].
Definition setMetrics (self : Params) (v : value) := _set self [("metrics", v)].
Definition setFeatureCols (self : Params) (v : value) := _set self [("feature_cols", v)].
Definition setLabelCols (self : Params) (v : value) := _set self [("label_cols", v)].
Definition setValidationCol (self : Params) (v : value) := _set self [("validation_col", v)].
Definition setCallbacks (self : Params) (v : value) := _set self [("callbacks", v)].
Definition setBatchSize (self : Params) (v : value) := _set self [("batch_size", v)].
Definition setEpochs (self : Params) (v : value) := _set self [("epochs", v)].
Definition setValidationSplit (self : Params) (v : value) :=
  _set self [("validation_split", v)].
Definition setVerbose (self : Params) (v : value) := _set self [("verbose", v)].
Definition setCompression (self : Params) (v : value) := _set self [("compression", v)].
Definition setShufflingBufferSize (self : Params) (v : value) :=
  _set self [("shuffle_buffer_size", v)].
Definition setPartitionsPerProcess (self : Params) (v : value) :=
  _set self [("partitions_per_process", v)].
Definition setNumProc (self : Params) (v : value) := _set self [("num_proc", v)].
Definition setModel (self : Params) (v : value) := _set self [("model", v)].
Definition setBackend (self : Params) (v : value) := _set self [("backend", v)].
Definition setStore (self : Params) (v : value) := _set self [("store", v)].
Definition setOptimizer (self : Params) (v : value) := _set self [("optimizer", v)].
Definition setRunId (self : Params) (v : value) := _set self [("run_id", v)].

(** The [Param] attributes of [ModelParams]; [outputCols] comes from
    pyspark's [HasOutputCols]. *)
Definition ModelParams_declared : list (string * converter) :=
  [ ("outputCols", toListString);
    ("history", identity);
    ("model", identity);
    ("feature_columns", identity);
    ("label_columns", identity);
    ("run_id", toString);
    ("_metadata", identity) ].

(** [ModelParams.__init__] sets no default. *)
Definition ModelParams_init (extra : list (string * converter)) : Params :=
  Params_init (ModelParams_declared ++ extra).

Definition setHistory (self : Params) (v : value) := _set self [("history", v)].
Definition setFeatureColumns (self : Params) (v : value) := _set self [("feature_columns", v)].
Definition setLabelColoumns (self : Params) (v : value) := _set self [("label_columns", v)].
Definition setOutputCols (self : Params) (v : value) := _set self [("outputCols", v)].
Definition getOutputCols (self : Params) := getOrDefault self "outputCols".
Definition getHistory (self : Params) := getOrDefault self "history".
Definition getFeatureColumns (self : Params) := getOrDefault self "feature_columns".
Definition getLabelColumns (self : Params) := getOrDefault self "label_columns".
Definition _get_metadata (self : Params) := getOrDefault self "_metadata".

End CommonParams.
Export CommonParams.

(** ** The world outside the two source files *)

Module World.

(** Calls whose answer depends on the state of the outside world, or that
    change it.  They are recorded in the order in which they are made. *)
Inductive call :=
| SparkBackend_new (num_proc : value)
| backend_num_processes (backend : value)
| backend_run (backend trainer serialized_model train_rows val_rows avg_row_size : value)
| util_prepare_data (num_processes store df label_columns feature_columns
                     validation_col validation_split sample_weight_col
                     partitions_per_process : value)
| util_get_simple_meta_from_parquet (store label_columns feature_columns
                                     sample_weight_col : value)
| store_get_checkpoint_path (store run_id : value)
| store_exists (store path : value)
| store_read (store path : value)
| time_time
| print (template : string) (arg : value).

(** A tensor of a floating-point dtype: its shape and its entries in
    row-major order. *)
Record tensor := {
  tensor_shape : list Z;
  tensor_data : list pyfloat
}.

(** What calling a torch module returns: one tensor, or a list or tuple of
    tensors. *)
Inductive model_output :=
| Single (t : tensor)
| Many (ts : list tensor).

(** The Python classes that [util.spark_scalar_to_python_type] can answer. *)
Inductive pytype :=
| PyInt
| PyBool
| PyFloat
| PyOther (name : string).

(** The collaborators.  [respond] answers a call given the calls made before
    it; the other fields are functions of their arguments only
    (serialisation, validation, tensor construction). *)
Record Env := {
  respond : list call -> call -> result value;
  (** [codec.dumps_base64], [codec.loads_base64] *)
  dumps_base64 : value -> result value;
  loads_base64 : value -> result value;
  (** [torch.load(f, map_location=...)] *)
  torch_load : value -> option string -> result value;
  (** [util.serialize], [util.deserialize_fn()] *)
  serialize : value -> result value;
  deserialize : value -> result value;
  (** [util.check_shape_compatibility] *)
  check_shape_compatibility : value -> value -> value -> value -> result unit;
  (** [remote.RemoteTrainer(estimator, metadata, last_checkpoint_state, run_id)] *)
  RemoteTrainer : Params -> value -> value -> value -> result value;
  (** [model.parameters()], [model.eval()], [model( *data)] *)
  parameters : value -> result value;
  eval_mode : value -> result value;
  forward : value -> list tensor -> result model_output;
  (** [torch.tensor([x]).reshape(shape)] *)
  feature_tensor : value -> value -> result tensor;
  (** the constructor of an optimizer class: the state the new optimizer
      starts with, and what [load_state_dict] accepts *)
  optimizer_init : string -> value -> Z -> result value;
  optimizer_accepts : string -> value -> value -> result unit;
  (** [util.spark_scalar_to_python_type] and the constructors of the classes
      it names *)
  spark_scalar_to_python_type : value -> result pytype;
  construct : string -> value -> result value
}.

(** State and exceptions. *)
Definition ST (S A : Type) : Type := S -> result A * S.

Definition ret {S A} (a : A) : ST S A := fun s => (Ok a, s).

Definition raise {S A} (e : exn) : ST S A := fun s => (Raise e, s).

Definition lift {S A} (r : result A) : ST S A := fun s => (r, s).

Definition bind {S A B} (m : ST S A) (f : A -> ST S B) : ST S B :=
  fun s =>
    match m s with
    | (Ok a, s') => f a s'
    | (Raise e, s') => (Raise e, s')
    end.

End World.
Export World.

Notation "x <- m ;; k" := (bind m (fun x => k))
  (at level 62, m at next level, k at level 200, right associativity).

(** [v[i]] for a non-negative literal index. *)
Definition subscript_index (v : value) (i : nat) : result value :=
  match v with
  | VList vs | VTuple vs =>
      match nth_error vs i with
      | Some x => Ok x
      | None => Raise (IndexError "index out of range")
      end
  | VStr s =>
      match nth_error (list_ascii_of_string s) i with
      | Some c => Ok (VStr (String c EmptyString))
      | None => Raise (IndexError "string index out of range")
      end
  | VDict _ => Raise (KeyError (str_of_int (Z.of_nat i)))
  | _ => Raise (TypeError "object is not subscriptable")
  end.

(** [a, b, c = v] *)
Definition unpack3 (v : value) : result (value * value * value) :=
  vs <~ iterate v ;;
  match vs with
  | [a; b; c] => Ok (a, b, c)
  | _ => Raise (ValueError "wrong number of values to unpack")
  end.

(** [a, b, c, d = v] *)
Definition unpack4 (v : value) : result (value * value * value * value) :=
  vs <~ iterate v ;;
  match vs with
  | [a; b; c; d] => Ok (a, b, c, d)
  | _ => Raise (ValueError "wrong number of values to unpack")
  end.

(** ** torch: optimizers and tensors

    Optimizers are mutable objects; they live in a heap indexed by the
    identity of the object.  [state_dict] reads the state of an optimizer,
    the constructor allocates a new object, [load_state_dict] overwrites the
    state of the optimizer it is called on. *)

Module Torch.

Record optimizer_data := {
  optim_params : value;
  optim_state : value
}.

(** [x.__class__.__name__] *)
Definition class_of (v : value) : string :=
  match v with
  | VNone => "NoneType"
  | VBool _ => "bool"
  | VInt _ => "int"
  | VFloat _ => "float"
  | VStr _ => "str"
  | VList _ => "list"
  | VTuple _ => "tuple"
  | VDict _ => "dict"
  | VClass _ => "type"
  | VObj o => obj_class o
  | VDenseVector _ => "DenseVector"
  | VSparseVector _ _ _ => "SparseVector"
  end.

Section Optimizers.
Context (E : Env).

(** [optimizer.state_dict()] *)
Definition state_dict (optimizer : value) : ST (gmap nat optimizer_data) value :=
  fun h =>
    match optimizer with
    | VObj o =>
        match h !! obj_id o with
        | Some d => (Ok (optim_state d), h)
        | None => (Raise (AttributeError "object has no attribute state_dict"), h)
        end
    | _ => (Raise (AttributeError "object has no attribute state_dict"), h)
    end.

(** [optimizer_cls(params, lr=lr)] *)
Definition Optimizer_new (optimizer_cls : string) (params : value) (lr : Z)
  : ST (gmap nat optimizer_data) value :=
  fun h =>
    match optimizer_init E optimizer_cls params lr with
    | Raise e => (Raise e, h)
    | Ok st =>
        let id := fresh (dom h) in
        (Ok (VObj {| obj_class := optimizer_cls; obj_id := id; obj_truth := true |}),
         <[id := {| optim_params := params; optim_state := st |}]> h)
    end.

(** [optimizer.load_state_dict(state)] *)
Definition load_state_dict (optimizer : value) (state : value)
  : ST (gmap nat optimizer_data) value :=
  fun h =>
    match optimizer with
    | VObj o =>
        match h !! obj_id o with
        | Some d =>
            match optimizer_accepts E (obj_class o) (optim_params d) state with
            | Raise e => (Raise e, h)
            | Ok _ =>
                (Ok VNone,
                 <[obj_id o := {| optim_params := optim_params d; optim_state := state |}]> h)
            end
        | None => (Raise (AttributeError "object has no attribute load_state_dict"), h)
        end
    | _ => (Raise (AttributeError "object has no attribute load_state_dict"), h)
    end.

End Optimizers.

(** [t.reshape(n, )] for the integer [n] found in the column metadata;
    [-1] lets torch infer the size. *)
Definition reshape (t : tensor) (shape : value) : result tensor :=
  match shape with
  | VInt n =>
      let size := Z.of_nat (length (tensor_data t)) in
      if Z.eqb n size || Z.eqb n (-1)
      then Ok {| tensor_shape := [size]; tensor_data := tensor_data t |}
      else Raise (RuntimeError "shape is invalid for input size")
  | _ => Raise (TypeError "reshape(): argument shape must be int")
  end.

(** [t.nonzero()] on a one-dimensional tensor: a two-dimensional tensor with
    one row per non-zero entry, the row holding the index of that entry. *)
Fixpoint nonzero_from (i : Z) (xs : list pyfloat) : list (list Z) :=
  match xs with
  | [] => []
  | x :: xs' =>
      if float_nonzero x then [i] :: nonzero_from (i + 1) xs'
      else nonzero_from (i + 1) xs'
  end.

Definition nonzero (t : tensor) : list (list Z) := nonzero_from 0 (tensor_data t).

(** [m[0]] on a two-dimensional index tensor: its first row. *)
Definition first_row (m : list (list Z)) : result (list Z) :=
  match m with
  | row :: _ => Ok row
  | [] => Raise (IndexError "index 0 is out of bounds for dimension 0 with size 0")
  end.

(** [t[indices]] for a one-dimensional tensor of indices. *)
Definition index_select (t : tensor) (indices : list Z) : result (list pyfloat) :=
  result_map
    (fun i =>
       match nth_error (tensor_data t) (Z.to_nat i) with
       | Some x => if Z.leb 0 i then Ok x else Raise (IndexError "index out of range")
       | None => Raise (IndexError "index out of range")
       end)
    indices.

(** [t.item()] *)
Definition item (t : tensor) : result value :=
  match tensor_data t with
  | [x] => Ok (VFloat x)
  | _ => Raise (ValueError "only one element tensors can be converted to Python scalars")
  end.

End Torch.
Export Torch.

(** pyspark's [SparseVector(size, indices, values)] and
    [DenseVector(values)]. *)
Fixpoint strictly_increasing (l : list Z) : bool :=
  match l with
  | a :: (b :: _) as l' => Z.ltb a b && strictly_increasing l'
  | _ => true
  end.

Definition SparseVector (size : value) (indices : list Z) (xs : list pyfloat)
  : result value :=
  match size with
  | VInt n =>
      if negb (Nat.eqb (length indices) (length xs))
      then Raise (OtherError "AssertionError" "index and value arrays not same length")
      else if negb (strictly_increasing indices)
      then Raise (TypeError "Indices are not strictly increasing")
      else Ok (VSparseVector n indices xs)
  | _ => Raise (TypeError "int() argument must be a string or a number")
  end.

Definition DenseVector (t : tensor) : result value :=
  Ok (VDenseVector (tensor_data t)).

(** ** [horovod/spark/torch/estimator.py] *)

Section Estimator.
Context (E : Env).

(** A call to the outside world: answered from the calls made so far, then
    recorded. *)
Definition invoke (c : call) : ST (list call) value :=
  fun t => (respond E t c, (t ++ [c])%list).

Definition _torch_param_serialize (param_name : string) (param_val : value)
  : result value :=
  if existsb (String.eqb param_name) ["backend"; "store"] then Ok VNone
  else if is_None param_val then Ok VNone
  else dumps_base64 E param_val.

(** [TorchEstimatorParamsReader._deserialize_dict] *)
Fixpoint _deserialize_items (items : dict) (deserialized_dict : dict) : result dict :=
  match items with
  | [] => Ok deserialized_dict
  | (key, val) :: items' =>
      if is_None val then _deserialize_items items' (dict_set key VNone deserialized_dict)
      else
        v <~ loads_base64 E val ;;
        _deserialize_items items' (dict_set key v deserialized_dict)
  end.

Definition _deserialize_dict (dict_values : dict) : result dict :=
  _deserialize_items dict_values [].

(** *** [TorchEstimator] *)

Definition TorchEstimator_declared : list (string * converter) :=
  [ ("input_shapes", identity); ("loss_constructor", identity) ].

Definition TorchEstimator_signature : list string :=
  [ "num_proc"; "model"; "backend"; "store"; "optimizer"; "loss";
    "loss_constructor"; "metrics"; "loss_weights"; "sample_weight_col";
    "compression"; "feature_cols"; "input_shapes"; "validation_col";
    "label_cols"; "callbacks"; "batch_size"; "epochs"; "validation_split";
    "verbose"; "shuffle_buffer_size"; "partitions_per_process"; "run_id" ].

(** The value bound to a parameter of [__init__]: the keyword argument, or
    the default [None] of the signature. *)
Definition argument (name : string) (kwargs : dict) : value :=
  match dict_get name kwargs with
  | Some v => v
  | None => VNone
  end.

(** [TorchEstimator.__init__], called with the keyword arguments [kwargs]. *)
Definition TorchEstimator_init (kwargs : dict) : result Params :=
  if negb (accepts TorchEstimator_signature kwargs)
  then Raise (TypeError "__init__() got an unexpected keyword argument")
  else
    self <~ EstimatorParams_init TorchEstimator_declared ;;
    self <~ _setDefault self [("loss_constructor", VNone)] ;;
    let loss := argument "loss" kwargs in
    let loss_constructor := argument "loss_constructor" kwargs in
    if dict_mem "loss" kwargs && dict_mem "loss_constructor" kwargs
    then Raise (ValueError "only one of loss_constructor and loss parameters can be specified.")
    else
      let kwargs :=
        if dict_mem "loss" kwargs && negb (is_list_or_tuple loss)
        then dict_set "loss" (VList [argument "loss" kwargs]) kwargs
        else kwargs in
      let kwargs :=
        if dict_mem "loss_constructor" kwargs && negb (is_list_or_tuple loss_constructor)
        then dict_set "loss_constructor" (VList [argument "loss_constructor" kwargs]) kwargs
        else kwargs in
      setParams self kwargs.

Definition setInputShapes (self : Params) (v : value) := _set self [("input_shapes", v)].
Definition getInputShapes (self : Params) := getOrDefault self "input_shapes".
Definition getLossConstructors (self : Params) := getOrDefault self "loss_constructor".
Definition _get_optimizer (self : Params) := getOrDefault self "optimizer".

(** [TorchEstimator.getOptimizer] *)
Definition getOptimizer (self : Params) : ST (gmap nat optimizer_data) value :=
  model <- lift (getModel self) ;;
  if truthy model then
    optimizer <- lift (_get_optimizer self) ;;
    let optimizer_cls := class_of optimizer in
    optimizer_state <- state_dict optimizer ;;
    params <- lift (parameters E model) ;;
    optimzer <- Optimizer_new E optimizer_cls params 1 ;;
    _ <- load_state_dict E optimzer optimizer_state ;;
    ret optimzer
  else
    lift (_get_optimizer self).

Definition _check_model_compatibility (self : Params) (metadata : value) : result unit :=
  feature_cols <~ getFeatureCols self ;;
  label_cols <~ getLabelCols self ;;
  input_shapes <~ getInputShapes self ;;
  check_shape_compatibility E metadata feature_cols label_cols input_shapes.

(** *** [TorchModel] *)

Definition TorchModel_declared : list (string * converter) :=
  [ ("optimizer", identity); ("input_shapes", identity) ].

Definition TorchModel_signature : list string :=
  [ "history"; "model"; "feature_columns"; "input_shapes"; "label_columns";
    "optimizer"; "run_id"; "_metadata" ].

(** [TorchModel.__init__], called with the keyword arguments [kwargs]. *)
Definition TorchModel_init (kwargs : dict) : result Params :=
  if negb (accepts TorchModel_signature kwargs)
  then Raise (TypeError "__init__() got an unexpected keyword argument")
  else
    let self := ModelParams_init TorchModel_declared in
    let label_columns := argument "label_columns" kwargs in
    self <~ (if truthy label_columns then
               cols <~ iterate label_columns ;;
               outs <~ result_map (fun col => py_add col (VStr "__output")) cols ;;
               setOutputCols self (VList outs)
             else Ok self) ;;
    setParams self kwargs.

Definition TorchModel_setOptimizer (self : Params) (v : value) := _set self [("optimizer", v)].

(** [TorchModel.getOptimizer] *)
Definition TorchModel_getOptimizer (self : Params) : ST (gmap nat optimizer_data) value :=
  model <- lift (getModel self) ;;
  if truthy model then
    _optimizer <- lift (_get_optimizer self) ;;
    let optimizer_cls := class_of _optimizer in
    optimizer_state <- state_dict _optimizer ;;
    params <- lift (parameters E model) ;;
    optimzer <- Optimizer_new E optimizer_cls params 1 ;;
    _ <- load_state_dict E optimzer optimizer_state ;;
    ret optimzer
  else
    lift (_get_optimizer self).

(** *** Training *)

Definition _get_model_kwargs (self : Params) (model history optimizer run_id metadata : value)
  : result dict :=
  feature_columns <~ getFeatureCols self ;;
  input_shapes <~ getInputShapes self ;;
  label_columns <~ getLabelCols self ;;
  Ok [ ("history", history);
       ("model", model);
       ("optimizer", optimizer);
       ("feature_columns", feature_columns);
       ("input_shapes", input_shapes);
       ("label_columns", label_columns);
       ("run_id", run_id);
       ("_metadata", metadata) ].

Definition _create_model (self : Params) (run_results run_id metadata : value)
  : result Params :=
  first <~ subscript_index run_results 0 ;;
  unpacked <~ unpack3 first ;;
  let '(history, serialized_model, serialized_optimizer) := unpacked in
  model <~ loads_base64 E serialized_model ;;
  optimizer_bio <~ loads_base64 E serialized_optimizer ;;
  opt <~ torch_load E optimizer_bio (Some "cpu") ;;
  kwargs <~ _get_model_kwargs self model history opt run_id metadata ;;
  TorchModel_init kwargs.

Definition _has_checkpoint (self : Params) (run_id : value) : ST (list call) value :=
  store <- lift (getStore self) ;;
  last_ckpt_path <- invoke (store_get_checkpoint_path store run_id) ;;
  if is_None last_ckpt_path then ret (VBool false)
  else invoke (store_exists store last_ckpt_path).

Definition _load_checkpoint (self : Params) (run_id : value) : ST (list call) value :=
  store <- lift (getStore self) ;;
  last_ckpt_path <- invoke (store_get_checkpoint_path store run_id) ;;
  verbose <- lift (getVerbose self) ;;
  _ <- (if truthy verbose
        then invoke (print "Resuming training from last checkpoint: {}" last_ckpt_path)
        else ret VNone) ;;
  ckpt_file <- invoke (store_read store last_ckpt_path) ;;
  lift (torch_load E ckpt_file None).

(** Lines 227 to 229 of [_fit_on_prepared_data]: the value of
    [last_checkpoint_state]. *)
Definition last_checkpoint_state_of (self : Params) (run_id : value)
  : ST (list call) value :=
  has <- _has_checkpoint self run_id ;;
  if truthy has then _load_checkpoint self run_id
  else ret VNone.

Definition _fit_on_prepared_data (self : Params)
    (backend train_rows val_rows metadata avg_row_size : value)
  : ST (list call) Params :=
  model_pre_train <- lift (getModel self) ;;
  if negb (truthy model_pre_train)
  then raise (ValueError "Model parameter is required")
  else
    _ <- lift (_check_model_compatibility self metadata) ;;
    run_id <- lift (getRunId self) ;;
    run_id <- (if is_None run_id then
                 now <- invoke time_time ;;
                 secs <- lift (py_int now) ;;
                 match secs with
                 | VInt n => ret (VStr ("pytorch_" ++ str_of_int n))
                 | _ => raise (TypeError "int() did not return an int")
                 end
               else ret run_id) ;;
    last_checkpoint_state <- last_checkpoint_state_of self run_id ;;
    serialized_model <- lift (serialize E model_pre_train) ;;
    trainer <- lift (RemoteTrainer E self metadata last_checkpoint_state run_id) ;;
    handle <- invoke (backend_run backend trainer serialized_model
                                  train_rows val_rows avg_row_size) ;;
    lift (_create_model self handle run_id metadata).

Definition xor_message : string :=
  "Exactly one of parameters " ++ dquote ++ "num_processes" ++ dquote ++
  " and " ++ dquote ++ "backend" ++ dquote ++ " must be specified".

(** Lines 195 to 201 of [_fit]: the values of [backend] and [num_processes]
    after the [if] / [elif] / [elif] statement. *)
Definition resolve_backend (num_processes backend : value)
  : ST (list call) (value * value) :=
  if Bool.eqb (is_None num_processes) (is_None backend)
  then raise (ValueError xor_message)
  else if is_None backend then
    backend <- invoke (SparkBackend_new num_processes) ;;
    ret (backend, num_processes)
  else if is_None num_processes then
    num_processes <- invoke (backend_num_processes backend) ;;
    ret (backend, num_processes)
  else ret (backend, num_processes).

Definition _fit (self : Params) (df : value) : ST (list call) Params :=
  validation_split <- lift (getValidationSplit self) ;;
  validation_col <- lift (getValidationCol self) ;;
  backend <- lift (getBackend self) ;;
  store <- lift (getStore self) ;;
  label_columns <- lift (getLabelCols self) ;;
  feature_columns <- lift (getFeatureCols self) ;;
  sample_weight_col <- lift (getSampleWeightCol self) ;;
  partitions_per_process <- lift (getPartitionsPerProcess self) ;;
  num_processes <- lift (getNumProc self) ;;
  resolved <- resolve_backend num_processes backend ;;
  let '(backend, num_processes) := resolved in
  prepared <- invoke (util_prepare_data num_processes store df label_columns
                        feature_columns validation_col validation_split
                        sample_weight_col partitions_per_process) ;;
  unpacked <- lift (unpack4 prepared) ;;
  let '(train_rows, val_rows, metadata, avg_row_size) := unpacked in
  _fit_on_prepared_data self backend train_rows val_rows metadata avg_row_size.

(** [Estimator.fit(df)] of pyspark, called without parameter overrides. *)
Definition fit (self : Params) (df : value) : ST (list call) Params :=
  _fit self df.

Definition _fit_on_parquet (self : Params) : ST (list call) Params :=
  backend <- lift (getBackend self) ;;
  store <- lift (getStore self) ;;
  label_columns <- lift (getLabelCols self) ;;
  feature_columns <- lift (getFeatureCols self) ;;
  sample_weight_col <- lift (getSampleWeightCol self) ;;
  meta <- invoke (util_get_simple_meta_from_parquet store label_columns
                    feature_columns sample_weight_col) ;;
  unpacked <- lift (unpack4 meta) ;;
  let '(train_rows, val_rows, metadata, avg_row_size) := unpacked in
  _fit_on_prepared_data self backend train_rows val_rows metadata avg_row_size.

(** [fit_on_parquet()], called without parameter overrides. *)
Definition fit_on_parquet (self : Params) : ST (list call) Params :=
  _fit_on_parquet self.

(** *** Inference *)

(** [issubclass(python_type, numbers.Integral)] *)
Definition is_Integral (python_type : pytype) : bool :=
  match python_type with
  | PyInt | PyBool => true
  | PyFloat | PyOther _ => false
  end.

(** [python_type(value)] *)
Definition py_cast (python_type : pytype) (v : value) : result value :=
  match python_type with
  | PyInt => py_int v
  | PyBool => Ok (VBool (truthy v))
  | PyFloat => py_float v
  | PyOther name => construct E name v
  end.

(** [col_type == DenseVector], [col_type == SparseVector] *)
Definition is_class (v : value) (name : string) : bool :=
  match v with
  | VClass n => String.eqb n name
  | _ => false
  end.

(** [d[k]] where the key is a value. *)
Definition subscript (d k : value) : result value :=
  match k with
  | VStr s => subscript_dict d s
  | _ =>
      match d with
      | VDict _ => Raise (KeyError (class_of k))
      | _ => Raise (TypeError "object is not subscriptable")
      end
  end.

(** Lines 360 to 379 of [predict]: the value of [field] for one label
    column, from its metadata and the prediction made for it. *)
Definition field_of (meta : value) (pred : tensor) : result value :=
  col_type <~ subscript_dict meta "spark_data_type" ;;
  if is_class col_type "DenseVector" then
    shape <~ subscript_dict meta "shape" ;;
    flattened_pred <~ reshape pred shape ;;
    DenseVector flattened_pred
  else if is_class col_type "SparseVector" then
    shape <~ subscript_dict meta "shape" ;;
    flattened_pred <~ reshape pred shape ;;
    nonzero_indices <~ first_row (nonzero flattened_pred) ;;
    vals <~ index_select flattened_pred nonzero_indices ;;
    SparseVector shape nonzero_indices vals
  else
    value <~ item pred ;;
    python_type <~ spark_scalar_to_python_type E col_type ;;
    value <~ (if is_Integral python_type then py_round value else Ok value) ;;
    py_cast python_type value.

(** The loop over [zip(label_cols, output_cols, preds)]. *)
Fixpoint set_output_fields (metadata : value)
    (triples : list (value * value * tensor)) (fields : dict) : result dict :=
  match triples with
  | [] => Ok fields
  | (label_col, output_col, pred) :: triples' =>
      meta <~ subscript metadata label_col ;;
      field <~ field_of meta pred ;;
      match output_col with
      | VStr name => set_output_fields metadata triples' (dict_set name field fields)
      | _ => Raise (TypeError "keywords must be strings")
      end
  end.

(** [row[col]] on a pyspark [Row]. *)
Definition row_get (row : dict) (col : value) : result value :=
  match col with
  | VStr name =>
      match dict_get name row with
      | Some v => Ok v
      | None => Raise (ValueError name)
      end
  | _ => Raise (TypeError "row indices must be integers or strings")
  end.

(** The body of the loop over the rows of [predict]: the row that is
    yielded. *)
Definition predict_row (model feature_cols input_shapes label_cols output_cols
                        metadata : value) (row : dict) : result dict :=
  let fields := row in
  cols <~ iterate feature_cols ;;
  shapes <~ iterate input_shapes ;;
  data <~ result_map
            (fun cs => x <~ row_get row (fst cs) ;; feature_tensor E (VList [x]) (snd cs))
            (combine cols shapes) ;;
  preds <~ forward E model data ;;
  let preds := match preds with Single t => [t] | Many ts => ts end in
  labels <~ iterate label_cols ;;
  outputs <~ iterate output_cols ;;
  set_output_fields metadata (combine (combine labels outputs) preds) fields.

(** [predict(rows)], the function mapped over the partitions. *)
Definition predict (serialized_model feature_cols input_shapes label_cols
                    output_cols metadata : value) (rows : list dict)
  : result (list dict) :=
  model <~ deserialize E serialized_model ;;
  result_map (predict_row model feature_cols input_shapes label_cols output_cols metadata)
             rows.

(** [TorchModel._transform]; the dataframe is given by its partitions. *)
Definition _transform (self : Params) (df : list (list dict)) : result (list (list dict)) :=
  model_pre_predict <~ getModel self ;;
  model_pre_predict <~ eval_mode E model_pre_predict ;;
  serialized_model <~ serialize E model_pre_predict ;;
  input_shapes <~ getInputShapes self ;;
  label_cols <~ getLabelColumns self ;;
  output_cols <~ getOutputCols self ;;
  feature_cols <~ getFeatureColumns self ;;
  metadata <~ _get_metadata self ;;
  result_map (predict serialized_model feature_cols input_shapes label_cols
                      output_cols metadata) df.

End Estimator.

(** ** Well-formed estimators *)

(** Every parameter that [EstimatorParams.__init__] gives a default has one;
    this holds for every instance built by [TorchEstimator_init] and is kept
    by the setters. *)
Definition has_defaults (self : Params) : Prop :=
  Forall (fun k => is_Some (defaultParamMap self !! k)) (dict_keys EstimatorParams_defaults).

(** The instance on which [TorchEstimator.__init__] calls [setParams]: the
    defaults are set and no parameter is. *)
Definition default_estimator : Params :=
  match (self <~ EstimatorParams_init TorchEstimator_declared ;;
         _setDefault self [("loss_constructor", VNone)]) with
  | Ok self => self
  | Raise _ => Params_init []
  end.

(** The value a getter answers; [None] stands for the [KeyError] case. *)
Definition param_value (self : Params) (name : string) : value :=
  match getOrDefault self name with
  | Ok v => v
  | Raise _ => VNone
  end.

(** The call [_fit] makes to the data-preparation collaborator. *)
Definition prepare_data_call (self : Params) (num_processes df : value) : call :=
  util_prepare_data num_processes (param_value self "store") df
    (param_value self "label_cols") (param_value self "feature_cols")
    (param_value self "validation_col") (param_value self "validation_split")
    (param_value self "sample_weight_col") (param_value self "partitions_per_process").

Definition is_data_preparation (c : call) : bool :=
  match c with
  | util_prepare_data _ _ _ _ _ _ _ _ _ => true
  | util_get_simple_meta_from_parquet _ _ _ _ => true
  | _ => false
  end.


(** The calls [_fit] makes before it hands over to [_fit_on_prepared_data]. *)
Definition is_setup_call (c : call) : bool :=
  match c with
  | SparkBackend_new _ => true
  | backend_num_processes _ => true
  | util_prepare_data _ _ _ _ _ _ _ _ _ => true
  | _ => false
  end.

Definition is_backend_run (c : call) : bool :=
  match c with
  | backend_run _ _ _ _ _ _ => true
  | _ => false
  end.

Definition is_clock (c : call) : bool :=
  match c with
  | time_time => true
  | _ => false
  end.

(** The parameters of a [TorchEstimator] and of a [TorchModel]. *)
Definition estimator_params : list (string * converter) :=
  (EstimatorParams_declared ++ TorchEstimator_declared)%list.

Definition model_params : list (string * converter) :=
  (ModelParams_declared ++ TorchModel_declared)%list.

(** The defaults of a [TorchEstimator]: those of [EstimatorParams.__init__]
    and the one [TorchEstimator.__init__] adds. *)
Definition estimator_defaults : dict :=
  (EstimatorParams_defaults ++ [("loss_constructor", VNone)])%list.

(** The call [_fit_on_parquet] makes to read the metadata. *)
Definition simple_meta_call (self : Params) : call :=
  util_get_simple_meta_from_parquet (param_value self "store")
    (param_value self "label_cols") (param_value self "feature_cols")
    (param_value self "sample_weight_col").

(** The entry the writer of persisted parameters stores for a parameter. *)
Definition serialize_entry (E : Env) (kv : string * value) : result (string * value) :=
  s <~ _torch_param_serialize E (fst kv) (snd kv) ;; Ok (fst kv, s).

(** The questions [_has_checkpoint] asks the store. *)
Definition is_checkpoint_query (c : call) : bool :=
  match c with
  | store_get_checkpoint_path _ _ | store_exists _ _ => true
  | _ => false
  end.

(** What [_deserialize_dict] makes of one entry of the dictionary. *)
Definition decode_entry (E : Env) (kv : string * value) : result (string * value) :=
  if is_None (snd kv) then Ok (fst kv, VNone)
  else v <~ loads_base64 E (snd kv) ;; Ok (fst kv, v).

(** [m] only adds calls to the trace, and every call it adds satisfies [P]. *)
Definition calls_only {A : Type} (P : call -> Prop) (m : ST (list call) A) : Prop :=
  forall t, exists t', snd (m t) = (t ++ t')%list /\ Forall P t'.

(** ** A concrete world, used to run the definitions *)

Module Example.

Definition obj (cls : string) (id : nat) : value :=
  VObj {| obj_class := cls; obj_id := id; obj_truth := true |}.

Definition wrap (tag : string) (v : value) : value := VTuple [VStr tag; v].

Definition unwrap (tag : string) (v : value) : result value :=
  match v with
  | VTuple [VStr tag'; x] =>
      if String.eqb tag tag' then Ok x else Raise (ValueError "cannot decode")
  | _ => Raise (ValueError "cannot decode")
  end.

(** Three stores: store 0 has no checkpoint path, store 1 names a path that
    does not exist, store 2 holds a checkpoint. *)
Definition store_id (store : value) : nat :=
  match store with
  | VObj o => obj_id o
  | _ => 0%nat
  end.

Definition metadata0 : value :=
  VDict [ ("label",
           VDict [("spark_data_type", VClass "IntegerType"); ("shape", VInt 1)]) ].

Definition run_results0 : value :=
  VList [ VTuple [VStr "history 0"; wrap "b64" (obj "Net" 10); wrap "b64" (VStr "optimizer bytes 0")];
          VTuple [VStr "history 1"; wrap "b64" (obj "Net" 11); wrap "b64" (VStr "optimizer bytes 1")];
          VTuple [VStr "history 2"; wrap "b64" (obj "Net" 12); wrap "b64" (VStr "optimizer bytes 2")] ].

Definition respond0 (t : list call) (c : call) : result value :=
  match c with
  | SparkBackend_new n => Ok (obj "SparkBackend" 20)
  | backend_num_processes _ => Ok (VInt 4)
  | backend_run _ _ _ _ _ _ => Ok run_results0
  | util_prepare_data _ _ _ _ _ _ _ _ _ =>
      Ok (VTuple [VInt 80; VInt 20; metadata0; VInt 64])
  | util_get_simple_meta_from_parquet _ _ _ _ =>
      Ok (VTuple [VInt 80; VInt 20; metadata0; VInt 64])
  | store_get_checkpoint_path store run_id =>
      match store_id store with
      | O => Ok VNone
      | _ => Ok (VStr "/runs/R1/checkpoint.pt")
      end
  | store_exists store _ =>
      match store_id store with
      | 2%nat => Ok (VBool true)
      | _ => Ok (VBool false)
      end
  | store_read _ path => Ok (wrap "bytes" path)
  | time_time => Ok (VFloat (FFinite (3144000001 # 2)))
  | print _ _ => Ok VNone
  end.

Definition E0 : Env :=
  {| respond := respond0;
     dumps_base64 := fun v => Ok (wrap "b64" v);
     loads_base64 := unwrap "b64";
     torch_load := fun f loc =>
       Ok (VTuple [VStr "loaded"; match loc with Some l => VStr l | None => VNone end; f]);
     serialize := fun v => Ok (wrap "serialized" v);
     deserialize := unwrap "serialized";
     check_shape_compatibility := fun _ _ _ _ => Ok tt;
     RemoteTrainer := fun _ metadata state run_id =>
       Ok (VTuple [VStr "RemoteTrainer"; metadata; state; run_id]);
     parameters := fun _ => Ok (VList [VStr "weight"; VStr "bias"]);
     eval_mode := fun m => Ok m;
     forward := fun _ _ =>
       Ok (Single {| tensor_shape := [1]; tensor_data := [FFinite (27 # 10)] |});
     feature_tensor := fun _ _ => Ok {| tensor_shape := [1]; tensor_data := [FFinite 1%Q] |};
     optimizer_init := fun _ _ _ => Ok (VDict []);
     optimizer_accepts := fun _ _ _ => Ok tt;
     spark_scalar_to_python_type := fun t =>
       match t with
       | VClass "IntegerType" => Ok PyInt
       | VClass "BooleanType" => Ok PyBool
       | VClass "FloatType" => Ok PyFloat
       | VClass "DoubleType" => Ok PyFloat
       | VClass "StringType" => Ok (PyOther "str")
       | _ => Raise (ValueError "Unrecognized data type")
       end;
     construct := fun name v => Ok (VTuple [VClass name; v]) |}.

(** [TorchEstimator(num_proc=2, store=..., feature_cols=['x'],
    label_cols=['label'], input_shapes=[[1]], run_id='R1', ...)] with the
    given extra keyword arguments. *)
Definition estimator_kwargs (store : nat) (extra : dict) : dict :=
  ([ ("num_proc", VInt 2);
    ("store", obj "Store" store);
    ("feature_cols", VList [VStr "x"]);
    ("label_cols", VList [VStr "label"]);
    ("input_shapes", VList [VList [VInt 1]]);
    ("run_id", VStr "R1") ] ++ extra)%list.

Definition estimator_of (kwargs : dict) : Params :=
  match TorchEstimator_init kwargs with
  | Ok self => self
  | Raise _ => Params_init []
  end.

(** An estimator without a model, and one with a model. *)
Definition no_model : Params := estimator_of (estimator_kwargs 0 []).

Definition with_model (store : nat) : Params :=
  estimator_of (estimator_kwargs store [("model", obj "Net" 1)]).

Definition df0 : value := obj "DataFrame" 30.

(** The model [_create_model] builds from [run_results0]. *)
Definition trained0 : Params :=
  match _create_model E0 (with_model 0) run_results0 (VStr "R1") metadata0 with
  | Ok trained => trained
  | Raise _ => Params_init []
  end.

(** A run of [_fit_on_prepared_data] with the answers of [respond0]. *)
Definition fitted0 : result Params * list call :=
  _fit_on_prepared_data E0 (with_model 0) (obj "SparkBackend" 20)
    (VInt 80) (VInt 20) metadata0 (VInt 64) [].

(** A row, the row predicted for it, and a dataframe of two partitions
    transformed by the trained model. *)
Definition row0 : dict := [("x", VFloat (FFinite 1%Q)); ("label", VInt 2)].

Definition predicted0 : dict :=
  match predict_row E0 (obj "Net" 10) (VList [VStr "x"]) (VList [VList [VInt 1]])
          (VList [VStr "label"]) (VList [VStr "label__output"]) metadata0 row0 with
  | Ok out => out
  | Raise _ => []
  end.

Definition df_rows0 : list (list dict) := [[row0; row0]; [row0]].

Definition transformed0 : list (list dict) :=
  match _transform E0 trained0 df_rows0 with
  | Ok df => df
  | Raise _ => []
  end.

Definition model_of (kwargs : dict) : Params :=
  match TorchModel_init kwargs with
  | Ok self => self
  | Raise _ => Params_init []
  end.

(** The optimizer objects alive in the examples. *)
Definition sgd : value := obj "SGD" 7.

Definition heap0 : gmap nat optimizer_data :=
  {[ 7%nat := {| optim_params := VList [VStr "weight"; VStr "bias"];
                 optim_state := VDict [("state", VDict []); ("param_groups", VList [VDict [("lr", VFloat (FFinite (1 # 10)))]])] |} ]}.

(** An empty [torch.nn.Sequential()]: a module, not [None], whose [len] is
    zero. *)
Definition empty_sequential : value :=
  VObj {| obj_class := "Sequential"; obj_id := 2; obj_truth := false |}.

Definition estimator_with (model optimizer : value) : Params :=
  estimator_of (estimator_kwargs 0 [("model", model); ("optimizer", optimizer)]).

Definition sparse_meta : value :=
  VDict [("spark_data_type", VClass "SparseVector"); ("shape", VInt 5)].

Definition integer_meta : value :=
  VDict [("spark_data_type", VClass "IntegerType"); ("shape", VInt 1)].

Definition tensor1 (xs : list Q) : tensor :=
  {| tensor_shape := [Z.of_nat (length xs)]; tensor_data := map FFinite xs |}.

End Example.

(** * Properties *)

(** ** Dictionaries *)

Lemma nodup_keys_NoDup (ks : list string) : nodup_keys ks = true -> NoDup ks.
Proof.
  induction ks as [|k ks IH]; simpl; intros H.
  - constructor.
  - apply andb_true_iff in H as [Hk Hks]. constructor; [|auto].
    intros Hin. apply negb_true_iff in Hk.
    assert (existsb (String.eqb k) ks = true) as Hex; [|congruence].
    apply existsb_exists. exists k. split.
    + now apply list_elem_of_In.
    + apply String.eqb_refl.
Qed.

Lemma dict_get_In (k : string) (d : dict) (v : value) :
  dict_get k d = Some v -> In (k, v) d.
Proof.
  induction d as [|[k' v'] d IH]; simpl; [discriminate|].
  destruct (String.eqb k k') eqn:Hk.
  - apply String.eqb_eq in Hk. subst. intros [= ->]. now left.
  - intros H. right. auto.
Qed.

Lemma dict_get_None (k : string) (d : dict) :
  dict_get k d = None <-> ~ In k (dict_keys d).
Proof.
  induction d as [|[k' v'] d IH]; simpl.
  - tauto.
  - destruct (String.eqb k k') eqn:Hk.
    + apply String.eqb_eq in Hk. subst. split; [discriminate|]. intros H. exfalso. auto.
    + apply String.eqb_neq in Hk. rewrite IH. split.
      * intros H [Heq|Hin]; [congruence|auto].
      * intros H Hin. auto.
Qed.

Lemma dict_mem_In (k : string) (d : dict) :
  dict_mem k d = true <-> In k (dict_keys d).
Proof.
  unfold dict_mem. destruct (dict_get k d) eqn:H.
  - split; [|reflexivity]. intros _. apply dict_get_In in H.
    apply in_map_iff. now exists (k, v).
  - apply dict_get_None in H. split; [discriminate|tauto].
Qed.

Lemma dict_get_set_eq (k : string) (v : value) (d : dict) :
  dict_get k (dict_set k v d) = Some v.
Proof.
  induction d as [|[k' v'] d IH]; simpl.
  - now rewrite String.eqb_refl.
  - destruct (String.eqb k k') eqn:Hk; simpl; now rewrite Hk.
Qed.

Lemma dict_get_set_ne (k k' : string) (v : value) (d : dict) :
  k <> k' -> dict_get k' (dict_set k v d) = dict_get k' d.
Proof.
  intros Hne. induction d as [|[k0 v0] d IH]; simpl.
  - apply String.eqb_neq in Hne. rewrite String.eqb_sym in Hne. now rewrite Hne.
  - destruct (String.eqb k k0) eqn:Hk; simpl.
    + apply String.eqb_eq in Hk. subst k0.
      assert (String.eqb k' k = false) as ->; [|reflexivity].
      apply String.eqb_neq. congruence.
    + now rewrite IH.
Qed.

Lemma dict_keys_set_present (k : string) (v : value) (d : dict) :
  In k (dict_keys d) -> dict_keys (dict_set k v d) = dict_keys d.
Proof.
  induction d as [|[k0 v0] d IH]; simpl; [tauto|].
  intros H. destruct (String.eqb k k0) eqn:Hk; simpl; [reflexivity|].
  f_equal. apply IH. destruct H as [H|H]; [|exact H].
  apply String.eqb_neq in Hk. congruence.
Qed.

Lemma dict_keys_set_absent (k : string) (v : value) (d : dict) :
  ~ In k (dict_keys d) -> dict_keys (dict_set k v d) = (dict_keys d ++ [k])%list.
Proof.
  induction d as [|[k0 v0] d IH]; simpl; [reflexivity|].
  intros H. destruct (String.eqb k k0) eqn:Hk; simpl.
  - apply String.eqb_eq in Hk. exfalso. auto.
  - f_equal. apply IH. auto.
Qed.

(** ** The parameter container *)

Lemma _set_frame (kwargs : dict) (self self' : Params) :
  _set self kwargs = Ok self' ->
  declared self' = declared self /\ defaultParamMap self' = defaultParamMap self.
Proof.
  revert self. induction kwargs as [|[k v] kwargs IH]; simpl; intros self H.
  - now injection H as <-.
  - destruct (converted _ _ k v) as [v'|e]; simpl in H; [|discriminate].
    apply IH in H. simpl in H. exact H.
Qed.

Lemma _set_other (kwargs : dict) (self self' : Params) (k : string) :
  _set self kwargs = Ok self' ->
  ~ In k (dict_keys kwargs) ->
  paramMap self' !! k = paramMap self !! k.
Proof.
  revert self. induction kwargs as [|[k0 v] kwargs IH]; simpl; intros self H Hk.
  - now injection H as <-.
  - destruct (converted _ _ k0 v) as [v'|e]; simpl in H; [|discriminate].
    apply IH in H; [|tauto]. rewrite H. simpl.
    apply lookup_insert_ne. intros ->. tauto.
Qed.

Lemma _set_lookup (kwargs : dict) (self self' : Params) (k : string) (v : value) :
  NoDup (dict_keys kwargs) ->
  dict_get k kwargs = Some v ->
  _set self kwargs = Ok self' ->
  exists v',
    converted "Invalid param value given for param " (declared self) k v = Ok v' /\
    paramMap self' !! k = Some v'.
Proof.
  revert self. induction kwargs as [|[k0 v0] kwargs IH]; simpl; intros self Hnd Hget H.
  - discriminate.
  - apply NoDup_cons in Hnd as [Hk0 Hnd].
    destruct (converted _ (declared self) k0 v0) as [v'|e] eqn:Hc; simpl in H; [|discriminate].
    destruct (String.eqb k k0) eqn:Hk.
    + apply String.eqb_eq in Hk. subst k0. injection Hget as <-.
      exists v'. split; [exact Hc|].
      erewrite _set_other; [|exact H|].
      * simpl. apply lookup_insert_eq.
      * intros Hin. apply Hk0. now apply list_elem_of_In.
    + destruct (IH _ Hnd Hget H) as (v1 & Hv1 & Hl). exists v1. split; [|exact Hl].
      exact Hv1.
Qed.

Lemma converted_identity (prefix : string) (ds : list (string * converter))
    (k : string) (v : value) :
  declared_converter k ds = Some identity -> converted prefix ds k v = Ok v.
Proof.
  intros H. unfold converted. rewrite H. now destruct (is_None v).
Qed.

Lemma getOrDefault_set (self : Params) (k : string) (v : value) :
  paramMap self !! k = Some v -> getOrDefault self k = Ok v.
Proof. intros H. unfold getOrDefault. now rewrite H. Qed.

Lemma accepts_keys (signature : list string) (kwargs : dict) :
  accepts signature kwargs = true ->
  NoDup (dict_keys kwargs) /\ forall k, In k (dict_keys kwargs) -> In k signature.
Proof.
  unfold accepts. intros H. apply andb_true_iff in H as [Hsub Hnd]. split.
  - now apply nodup_keys_NoDup.
  - intros k Hk. rewrite forallb_forall in Hsub. specialize (Hsub k Hk).
    apply existsb_exists in Hsub as (k' & Hin & Heq).
    apply String.eqb_eq in Heq. now subst.
Qed.

Lemma defaults_are_set {B : Type} (k : Params -> result B) :
  (self <~ EstimatorParams_init TorchEstimator_declared ;;
   self <~ _setDefault self [("loss_constructor", VNone)] ;;
   k self) = k default_estimator.
Proof.
  unfold default_estimator.
  destruct (EstimatorParams_init TorchEstimator_declared) as [d|e] eqn:H0.
  - cbn [rbind].
    destruct (_setDefault d [("loss_constructor", VNone)]) as [d'|e] eqn:H1; [reflexivity|].
    exfalso. vm_compute in H0. injection H0 as <-. vm_compute in H1. discriminate.
  - exfalso. vm_compute in H0. discriminate.
Qed.

Lemma default_estimator_declared :
  declared default_estimator = (EstimatorParams_declared ++ TorchEstimator_declared)%list.
Proof. vm_compute. reflexivity. Qed.

Lemma default_estimator_paramMap : paramMap default_estimator = ∅.
Proof. vm_compute. reflexivity. Qed.

Lemma default_estimator_has_defaults : has_defaults default_estimator.
Proof.
  unfold has_defaults. simpl dict_keys.
  repeat (apply Forall_cons; split; [eexists; vm_compute; reflexivity|]).
  apply Forall_nil. exact I.
Qed.

Lemma _set_has_defaults (self self' : Params) (kwargs : dict) :
  has_defaults self -> _set self kwargs = Ok self' -> has_defaults self'.
Proof.
  unfold has_defaults. intros H Hs. apply _set_frame in Hs as [_ ->]. exact H.
Qed.

Lemma TorchEstimator_init_has_defaults (kwargs : dict) (self : Params) :
  TorchEstimator_init kwargs = Ok self -> has_defaults self.
Proof.
  unfold TorchEstimator_init.
  destruct (accepts _ kwargs); cbn [negb]; [|discriminate].
  rewrite defaults_are_set.
  destruct (dict_mem "loss" kwargs && dict_mem "loss_constructor" kwargs); [discriminate|].
  apply _set_has_defaults, default_estimator_has_defaults.
Qed.

(** C3: the constructor of the estimator refuses [loss] together with
    [loss_constructor], and a [loss] that is neither a list nor a tuple is
    stored as the one-element list holding it. *)
Theorem loss_exclusive_and_normalized (kwargs : dict) :
  accepts TorchEstimator_signature kwargs = true ->
  (dict_mem "loss" kwargs = true ->
   dict_mem "loss_constructor" kwargs = true ->
   TorchEstimator_init kwargs =
     Raise (ValueError "only one of loss_constructor and loss parameters can be specified.")) /\
  (forall loss : value,
     dict_get "loss" kwargs = Some loss ->
     is_list_or_tuple loss = false ->
     dict_mem "loss_constructor" kwargs = false ->
     TorchEstimator_init kwargs =
       setParams default_estimator (dict_set "loss" (VList [loss]) kwargs) /\
     forall self : Params,
       TorchEstimator_init kwargs = Ok self -> getLoss self = Ok (VList [loss])).
Proof.
  intros Hacc. split.
  - intros Hl Hc. unfold TorchEstimator_init. rewrite Hacc. cbn [negb].
    rewrite defaults_are_set. now rewrite Hl, Hc.
  - intros loss Hget Hscalar Hnc.
    assert (dict_mem "loss" kwargs = true) as Hmem by (unfold dict_mem; now rewrite Hget).
    assert (TorchEstimator_init kwargs =
            setParams default_estimator (dict_set "loss" (VList [loss]) kwargs)) as Heq.
    { unfold TorchEstimator_init. rewrite Hacc. cbn [negb].
      rewrite defaults_are_set. rewrite Hmem, Hnc. cbn [andb].
      replace (argument "loss" kwargs) with loss by (unfold argument; now rewrite Hget).
      rewrite Hscalar. cbn [negb andb].
      assert (dict_mem "loss_constructor" (dict_set "loss" (VList [loss]) kwargs) = false) as ->.
      { unfold dict_mem in *. rewrite dict_get_set_ne by discriminate. exact Hnc. }
      reflexivity. }
    split; [exact Heq|].
    intros self Hinit. rewrite Heq in Hinit. unfold setParams in Hinit.
    apply accepts_keys in Hacc as [Hnd _].
    apply dict_mem_In in Hmem.
    assert (NoDup (dict_keys (dict_set "loss" (VList [loss]) kwargs))) as Hnd'
      by now rewrite dict_keys_set_present.
    destruct (_set_lookup _ _ _ "loss" (VList [loss]) Hnd' (dict_get_set_eq _ _ _) Hinit)
      as (v' & Hv' & Hl).
    rewrite converted_identity in Hv'.
    + injection Hv' as <-. unfold getLoss. now apply getOrDefault_set.
    + rewrite default_estimator_declared. reflexivity.
Qed.

Lemma loss_exclusive_and_normalized_witness :
  TorchEstimator_init [("loss", VStr "mse"); ("loss_constructor", VStr "make_loss")] =
    Raise (ValueError "only one of loss_constructor and loss parameters can be specified.") /\
  getLoss (Example.estimator_of [("num_proc", VInt 2); ("loss", VStr "mse")]) =
    Ok (VList [VStr "mse"]).
Proof.
  split.
  - assert (accepts TorchEstimator_signature
              [("loss", VStr "mse"); ("loss_constructor", VStr "make_loss")] = true)
      as Hacc by (vm_compute; reflexivity).
    destruct (loss_exclusive_and_normalized _ Hacc) as [H _].
    apply H; vm_compute; reflexivity.
  - assert (accepts TorchEstimator_signature
              [("num_proc", VInt 2); ("loss", VStr "mse")] = true)
      as Hacc by (vm_compute; reflexivity).
    destruct (loss_exclusive_and_normalized _ Hacc) as [_ H].
    assert (dict_get "loss" [("num_proc", VInt 2); ("loss", VStr "mse")] = Some (VStr "mse"))
      as Hget by (vm_compute; reflexivity).
    destruct (H (VStr "mse") Hget eq_refl) as [_ H']; [vm_compute; reflexivity|].
    apply H'. unfold Example.estimator_of.
    destruct (TorchEstimator_init [("num_proc", VInt 2); ("loss", VStr "mse")]) as [self|e] eqn:Hinit;
      [reflexivity|].
    vm_compute in Hinit. discriminate.
Defined.

(** ** The trained model *)

Lemma output_names_added (names : list string) :
  result_map (fun col => py_add col (VStr "__output")) (map VStr names) =
  Ok (map (fun col => VStr (col ++ "__output")) names).
Proof.
  induction names as [|n names IH]; simpl; [reflexivity|].
  now rewrite IH.
Qed.

Lemma names_convert_to_strings (f : string -> string) (names : list string) :
  forallb _can_convert_to_string (map (fun col => VStr (f col)) names) = true.
Proof. induction names; simpl; auto. Qed.

Lemma TorchModel_declared_all :
  declared (ModelParams_init TorchModel_declared) =
  (ModelParams_declared ++ TorchModel_declared)%list.
Proof. reflexivity. Qed.

(** C9: the constructor of the trained model sets the output columns to the
    label columns, in order, each with the suffix [__output]. *)
Theorem output_columns_of_label_columns (kwargs : dict) (names : list string) :
  names <> [] ->
  accepts TorchModel_signature kwargs = true ->
  dict_get "label_columns" kwargs = Some (VList (map VStr names)) ->
  let outs := VList (map (fun col => VStr (col ++ "__output")) names) in
  TorchModel_init kwargs =
    setParams (with_param (ModelParams_init TorchModel_declared) "outputCols" outs) kwargs /\
  forall self : Params,
    TorchModel_init kwargs = Ok self -> getOutputCols self = Ok outs.
Proof.
  intros Hne Hacc Hget outs.
  assert (TorchModel_init kwargs =
          setParams (with_param (ModelParams_init TorchModel_declared) "outputCols" outs) kwargs)
    as Heq.
  { unfold TorchModel_init. rewrite Hacc. cbn [negb].
    unfold argument. rewrite Hget.
    assert (truthy (VList (map VStr names)) = true) as ->
      by (destruct names; [congruence|reflexivity]).
    cbn [iterate rbind]. rewrite output_names_added. cbn [rbind].
    unfold setOutputCols. cbn [_set]. unfold converted.
    rewrite TorchModel_declared_all.
    change (declared_converter "outputCols" (ModelParams_declared ++ TorchModel_declared))
      with (Some toListString).
    cbn [is_None convert toList_conv].
    rewrite (names_convert_to_strings (fun col => col ++ "__output")).
    reflexivity. }
  split; [exact Heq|].
  intros self Hinit. rewrite Heq in Hinit. unfold setParams in Hinit.
  apply accepts_keys in Hacc as [_ Hsig].
  unfold getOutputCols. apply getOrDefault_set.
  erewrite _set_other; [|exact Hinit|].
  - simpl. apply lookup_insert_eq.
  - intros Hin. apply Hsig in Hin. simpl in Hin.
    repeat (destruct Hin as [Hin|Hin]; [discriminate|]). exact Hin.
Qed.

Lemma output_columns_of_label_columns_witness :
  getOutputCols
    (Example.model_of [("label_columns", VList [VStr "price"; VStr "rating"]);
                       ("run_id", VStr "R1")]) =
  Ok (VList [VStr "price__output"; VStr "rating__output"]).
Proof.
  assert (accepts TorchModel_signature
            [("label_columns", VList [VStr "price"; VStr "rating"]); ("run_id", VStr "R1")]
          = true) as Hacc by (vm_compute; reflexivity).
  assert (["price"; "rating"] <> []) as Hne by discriminate.
  destruct (output_columns_of_label_columns _ ["price"; "rating"] Hne Hacc eq_refl)
    as [_ H].
  apply H. unfold Example.model_of.
  destruct (TorchModel_init _) as [self|e] eqn:Hinit; [reflexivity|].
  vm_compute in Hinit. discriminate.
Defined.

(** ** Building the trained model from the results of the workers *)

Lemma create_model_kwargs_accepted (model history opt run_id metadata fc ish lc : value) :
  accepts TorchModel_signature
    [ ("history", history); ("model", model); ("optimizer", opt);
      ("feature_columns", fc); ("input_shapes", ish); ("label_columns", lc);
      ("run_id", run_id); ("_metadata", metadata) ] = true.
Proof. reflexivity. Qed.

Lemma TorchModel_init_lookup (kwargs : dict) (self : Params) (k : string) (v : value) :
  TorchModel_init kwargs = Ok self ->
  dict_get k kwargs = Some v ->
  declared_converter k (ModelParams_declared ++ TorchModel_declared) = Some identity ->
  getOrDefault self k = Ok v.
Proof.
  unfold TorchModel_init. intros Hinit Hget Hid.
  destruct (accepts TorchModel_signature kwargs) eqn:Hacc; cbn [negb] in Hinit; [|discriminate].
  apply accepts_keys in Hacc as [Hnd _].
  destruct (if truthy (argument "label_columns" kwargs) then _ else _) as [self1|e] eqn:H1;
    cbn [rbind] in Hinit; [|discriminate].
  assert (declared self1 = (ModelParams_declared ++ TorchModel_declared)%list) as Hdecl.
  { destruct (truthy (argument "label_columns" kwargs)).
    - destruct (iterate _) as [cols|]; cbn [rbind] in H1; [|discriminate].
      destruct (result_map _ cols) as [outs|]; cbn [rbind] in H1; [|discriminate].
      unfold setOutputCols in H1. now apply _set_frame in H1 as [-> _].
    - now injection H1 as <-. }
  unfold setParams in Hinit.
  destruct (_set_lookup _ _ _ k v Hnd Hget Hinit) as (v' & Hv' & Hl).
  rewrite converted_identity in Hv' by now rewrite Hdecl.
  injection Hv' as <-. now apply getOrDefault_set.
Qed.

(** C4: the trained model is built from the result of the first worker only:
    its history is stored as it is, its model and optimizer are decoded from
    the serialized model and optimizer of that result, the optimizer being
    loaded onto the CPU; the results of the other workers play no part. *)
Theorem create_model_uses_first_result (E : Env) (self : Params)
    (history serialized_model serialized_optimizer : value)
    (others : list value) (run_id metadata : value) :
  let first := VTuple [history; serialized_model; serialized_optimizer] in
  (forall others' : list value,
     _create_model E self (VList (first :: others')) run_id metadata =
     _create_model E self (VList (first :: others)) run_id metadata) /\
  (forall trained : Params,
     _create_model E self (VList (first :: others)) run_id metadata = Ok trained ->
     getHistory trained = Ok history /\
     (exists model,
        loads_base64 E serialized_model = Ok model /\ getModel trained = Ok model) /\
     (exists optimizer_bio opt,
        loads_base64 E serialized_optimizer = Ok optimizer_bio /\
        torch_load E optimizer_bio (Some "cpu") = Ok opt /\
        _get_optimizer trained = Ok opt)).
Proof.
  intros first. split; [reflexivity|].
  intros trained H. unfold _create_model in H.
  cbn [subscript_index nth_error rbind first unpack3 iterate] in H.
  destruct (loads_base64 E serialized_model) as [model|] eqn:Hm; cbn [rbind] in H; [|discriminate].
  destruct (loads_base64 E serialized_optimizer) as [bio|] eqn:Hb; cbn [rbind] in H; [|discriminate].
  destruct (torch_load E bio (Some "cpu")) as [opt|] eqn:Ho; cbn [rbind] in H; [|discriminate].
  unfold _get_model_kwargs in H.
  destruct (getFeatureCols self) as [fc|]; cbn [rbind] in H; [|discriminate].
  destruct (getInputShapes self) as [ish|]; cbn [rbind] in H; [|discriminate].
  destruct (getLabelCols self) as [lc|]; cbn [rbind] in H; [|discriminate].
  split; [|split].
  - unfold getHistory. eapply TorchModel_init_lookup; [exact H|reflexivity|reflexivity].
  - exists model. split; [reflexivity|].
    unfold getModel. eapply TorchModel_init_lookup; [exact H|reflexivity|reflexivity].
  - exists bio, opt. repeat split; [exact Ho|].
    unfold _get_optimizer. eapply TorchModel_init_lookup; [exact H|reflexivity|reflexivity].
Qed.

Lemma create_model_uses_first_result_witness :
  getHistory Example.trained0 = Ok (VStr "history 0").
Proof.
  refine (proj1 (proj2 (create_model_uses_first_result Example.E0 (Example.with_model 0)
                          (VStr "history 0") _ _ _ (VStr "R1") Example.metadata0)
                       Example.trained0 _)).
  unfold Example.trained0.
  destruct (_create_model Example.E0 (Example.with_model 0) Example.run_results0
              (VStr "R1") Example.metadata0) as [trained|e] eqn:H; [exact H|].
  vm_compute in H. discriminate.
Defined.

(** ** Persisted parameters *)

Section Serialization.
Context (E : Env).

Lemma dict_set_absent (k : string) (v : value) (d : dict) :
  ~ In k (dict_keys d) -> dict_set k v d = (d ++ [(k, v)])%list.
Proof.
  induction d as [|[k0 v0] d IH]; simpl; [reflexivity|].
  intros H. destruct (String.eqb k k0) eqn:Hk.
  - apply String.eqb_eq in Hk. exfalso. auto.
  - f_equal. apply IH. auto.
Qed.

Lemma _deserialize_items_entries (items acc : dict) :
  NoDup (dict_keys acc ++ dict_keys items) ->
  _deserialize_items E items acc =
    (ds <~ result_map (decode_entry E) items ;; Ok (acc ++ ds)%list).
Proof.
  revert acc. induction items as [|[k v] items IH]; intros acc Hnd.
  - simpl. now rewrite app_nil_r.
  - assert (~ In k (dict_keys acc)) as Hk.
    { apply NoDup_app in Hnd as (_ & Hdis & _). intros Hin.
      apply (Hdis k); [now apply list_elem_of_In|]. simpl. left. }
    assert (forall x, NoDup (dict_keys (acc ++ [(k, x)])%list ++ dict_keys items)) as Hnd'.
    { intros x. unfold dict_keys in *. rewrite map_app. simpl.
      rewrite <- app_assoc. exact Hnd. }
    cbn [_deserialize_items result_map]. unfold decode_entry at 1. cbn [fst snd].
    destruct (is_None v).
    + rewrite dict_set_absent by exact Hk. rewrite IH by apply Hnd'.
      cbn [rbind]. destruct (result_map (decode_entry E) items); cbn [rbind]; [|reflexivity].
      now rewrite <- app_assoc.
    + destruct (loads_base64 E v) as [x|e]; cbn [rbind]; [|reflexivity].
      rewrite dict_set_absent by exact Hk. rewrite IH by apply Hnd'.
      destruct (result_map (decode_entry E) items); cbn [rbind]; [|reflexivity].
      now rewrite <- app_assoc.
Qed.




End Serialization.


(** ** Traces *)

Section Traces.
Context (E : Env).

Lemma calls_only_ret {A} (P : call -> Prop) (a : A) : calls_only P (ret a).
Proof. intros t. exists []. split; [simpl; now rewrite app_nil_r|constructor]. Qed.

Lemma calls_only_raise {A} (P : call -> Prop) (e : exn) : calls_only P (@raise _ A e).
Proof. intros t. exists []. split; [simpl; now rewrite app_nil_r|constructor]. Qed.

Lemma calls_only_lift {A} (P : call -> Prop) (r : result A) : calls_only P (lift r).
Proof. intros t. exists []. split; [simpl; now rewrite app_nil_r|constructor]. Qed.

Lemma calls_only_invoke (P : call -> Prop) (c : call) : P c -> calls_only P (invoke E c).
Proof. intros H t. exists [c]. split; [reflexivity|]. now repeat constructor. Qed.

Lemma calls_only_bind {A B} (P : call -> Prop) (m : ST (list call) A)
    (f : A -> ST (list call) B) :
  calls_only P m -> (forall a, calls_only P (f a)) -> calls_only P (bind m f).
Proof.
  intros Hm Hf t. unfold bind. destruct (Hm t) as (t1 & Ht1 & HP1).
  destruct (m t) as [[a|e] s]; simpl in Ht1; subst s.
  - destruct (Hf a (t ++ t1)%list) as (t2 & Ht2 & HP2).
    exists (t1 ++ t2)%list. split.
    + rewrite Ht2. now rewrite app_assoc.
    + apply Forall_app. now split.
  - exists t1. now split.
Qed.

Lemma calls_only_weaken {A} (P Q : call -> Prop) (m : ST (list call) A) :
  (forall c, P c -> Q c) -> calls_only P m -> calls_only Q m.
Proof.
  intros HPQ Hm t. destruct (Hm t) as (t' & Ht' & HP). exists t'. split; [exact Ht'|].
  eapply Forall_impl; [exact HP|exact HPQ].
Qed.

End Traces.

(** Splits a computation along its binds, conditionals and matches. *)
Ltac trace_steps :=
  repeat first
    [ apply calls_only_ret
    | apply calls_only_raise
    | apply calls_only_lift
    | apply calls_only_invoke
    | apply calls_only_bind; [|intros ?]
    | match goal with
      | |- calls_only _ (if ?b then _ else _) => destruct b
      | |- calls_only _ (match ?x with _ => _ end) => destruct x
      | |- calls_only _ (let '(_, _) := ?x in _) => destruct x
      end ].

(** ** Getters of a well-formed estimator *)

Lemma getter_value (self : Params) (k : string) :
  has_defaults self ->
  In k (dict_keys EstimatorParams_defaults) ->
  getOrDefault self k = Ok (param_value self k).
Proof.
  intros Hd Hk. unfold has_defaults in Hd. rewrite Forall_forall in Hd.
  assert (is_Some (defaultParamMap self !! k)) as [v Hv].
  { apply Hd. now apply list_elem_of_In. }
  unfold param_value, getOrDefault. destruct (paramMap self !! k); [reflexivity|].
  now rewrite Hv.
Qed.

Ltac default_key := simpl; repeat first [left; reflexivity | right].

Section Fit.
Context (E : Env).

(** [_fit] once its getters have answered. *)
Lemma _fit_after_getters (self : Params) (df : value) :
  has_defaults self ->
  _fit E self df =
  (resolved <- resolve_backend E (param_value self "num_proc") (param_value self "backend") ;;
   let '(backend, num_processes) := resolved in
   prepared <- invoke E (prepare_data_call self num_processes df) ;;
   unpacked <- lift (unpack4 prepared) ;;
   let '(train_rows, val_rows, metadata, avg_row_size) := unpacked in
   _fit_on_prepared_data E self backend train_rows val_rows metadata avg_row_size).
Proof.
  intros Hd. unfold _fit, prepare_data_call.
  unfold getValidationSplit, getValidationCol, getBackend, getStore, getLabelCols,
    getFeatureCols, getSampleWeightCol, getPartitionsPerProcess, getNumProc.
  rewrite !(getter_value self _ Hd) by default_key.
  reflexivity.
Qed.

Lemma resolve_backend_calls (num_processes backend : value) :
  calls_only (fun c => is_setup_call c = true) (resolve_backend E num_processes backend).
Proof. unfold resolve_backend. trace_steps; reflexivity. Qed.

Lemma _has_checkpoint_calls (self : Params) (run_id : value) :
  calls_only (fun c => is_checkpoint_query c = true) (_has_checkpoint E self run_id).
Proof. unfold _has_checkpoint. trace_steps; reflexivity. Qed.

Lemma _fit_on_prepared_data_calls (self : Params)
    (backend train_rows val_rows metadata avg_row_size : value) :
  calls_only (fun c => is_setup_call c = false /\ is_data_preparation c = false)
    (_fit_on_prepared_data E self backend train_rows val_rows metadata avg_row_size).
Proof.
  unfold _fit_on_prepared_data, last_checkpoint_state_of, _has_checkpoint, _load_checkpoint.
  trace_steps; split; reflexivity.
Qed.

Lemma _fit_calls (self : Params) (df : value) :
  calls_only (fun _ => True) (_fit E self df).
Proof.
  unfold _fit, resolve_backend. trace_steps; exact I.
Qed.

Lemma trace_extends {A} (P : call -> Prop) (m : ST (list call) A) (t : list call) :
  calls_only P m -> exists t', snd (m t) = (t ++ t')%list.
Proof. intros H. destruct (H t) as (t' & Ht' & _). eauto. Qed.

(** C2: [fit] wants exactly one of [num_proc] and [backend].  With both or
    neither it raises before calling anything; with [num_proc] alone it
    constructs a [SparkBackend] of that size, prepares the data for
    [num_proc] processes and goes on with the new backend; with [backend]
    alone it asks the backend for [num_processes()] and prepares the data for
    that many processes. *)
Theorem fit_resolves_backend (self : Params) (df : value) (t : list call) :
  has_defaults self ->
  let num_proc := param_value self "num_proc" in
  let backend := param_value self "backend" in
  (is_None num_proc = is_None backend ->
     fit E self df t = (Raise (ValueError xor_message), t)) /\
  (is_None backend = true -> is_None num_proc = false ->
     (exists t', snd (fit E self df t) = (t ++ SparkBackend_new num_proc :: t')%list) /\
     (forall new_backend prepared train_rows val_rows metadata avg_row_size,
        respond E t (SparkBackend_new num_proc) = Ok new_backend ->
        respond E (t ++ [SparkBackend_new num_proc])
                (prepare_data_call self num_proc df) = Ok prepared ->
        unpack4 prepared = Ok (train_rows, val_rows, metadata, avg_row_size) ->
        fit E self df t =
          _fit_on_prepared_data E self new_backend train_rows val_rows metadata avg_row_size
            (t ++ [SparkBackend_new num_proc; prepare_data_call self num_proc df])%list)) /\
  (is_None num_proc = true -> is_None backend = false ->
     (exists t', snd (fit E self df t) = (t ++ backend_num_processes backend :: t')%list) /\
     (forall n prepared train_rows val_rows metadata avg_row_size,
        respond E t (backend_num_processes backend) = Ok n ->
        respond E (t ++ [backend_num_processes backend])
                (prepare_data_call self n df) = Ok prepared ->
        unpack4 prepared = Ok (train_rows, val_rows, metadata, avg_row_size) ->
        fit E self df t =
          _fit_on_prepared_data E self backend train_rows val_rows metadata avg_row_size
            (t ++ [backend_num_processes backend; prepare_data_call self n df])%list)).
Proof.
  intros Hd num_proc backend. unfold fit. rewrite (_fit_after_getters self df Hd).
  fold num_proc backend. unfold resolve_backend.
  split; [|split].
  - intros Hxor. rewrite Hxor, Bool.eqb_reflx. reflexivity.
  - intros Hb Hn. rewrite Hn, Hb. cbn [Bool.eqb]. split.
    + unfold bind at 1 2, invoke at 1. destruct (respond E t (SparkBackend_new num_proc)) as [b|e].
      * cbn [ret].
        match goal with
        | |- context [snd (?k (t ++ [?c])%list)] =>
            destruct (trace_extends (fun _ => True) k (t ++ [c])%list) as [t' Ht']
        end.
        { trace_steps; exact I. }
        exists t'. rewrite Ht'. now rewrite <- app_assoc.
      * exists []. reflexivity.
    + intros new_backend prepared train_rows val_rows metadata avg_row_size Hnew Hprep Hun.
      unfold bind, invoke, ret, lift. rewrite Hnew, Hprep, Hun.
      now rewrite <- app_assoc.
  - intros Hn Hb. rewrite Hn, Hb. cbn [Bool.eqb]. split.
    + unfold bind at 1 2, invoke at 1.
      destruct (respond E t (backend_num_processes backend)) as [n|e].
      * cbn [ret].
        match goal with
        | |- context [snd (?k (t ++ [?c])%list)] =>
            destruct (trace_extends (fun _ => True) k (t ++ [c])%list) as [t' Ht']
        end.
        { trace_steps; exact I. }
        exists t'. rewrite Ht'. now rewrite <- app_assoc.
      * exists []. reflexivity.
    + intros n prepared train_rows val_rows metadata avg_row_size Hnew Hprep Hun.
      unfold bind, invoke, ret, lift. rewrite Hnew, Hprep, Hun.
      now rewrite <- app_assoc.
Qed.

End Fit.

Section MissingModel.
Context (E : Env).

Lemma _fit_on_prepared_data_without_model (self : Params)
    (backend train_rows val_rows metadata avg_row_size : value) (t : list call) :
  (exists model, getModel self = Ok model /\ truthy model = false) ->
  _fit_on_prepared_data E self backend train_rows val_rows metadata avg_row_size t =
    (Raise (ValueError "Model parameter is required"), t).
Proof.
  intros (model & Hm & Hf). unfold _fit_on_prepared_data, bind, lift.
  now rewrite Hm, Hf.
Qed.

(** C1, as the code has it: without a model [fit] raises
    [ValueError('Model parameter is required')], and it does so right after
    the data-preparation collaborator has answered: that call is the last
    one made, no checkpoint is looked up and nothing is dispatched. *)
Theorem fit_without_model (self : Params) (df : value) (t : list call) :
  has_defaults self ->
  getModel self = Ok VNone ->
  (forall backend train_rows val_rows metadata avg_row_size t',
     _fit_on_prepared_data E self backend train_rows val_rows metadata avg_row_size t' =
       (Raise (ValueError "Model parameter is required"), t')) /\
  (forall backend num_processes t1 prepared,
     resolve_backend E (param_value self "num_proc") (param_value self "backend") t =
       (Ok (backend, num_processes), t1) ->
     respond E t1 (prepare_data_call self num_processes df) = Ok prepared ->
     (exists rows, unpack4 prepared = Ok rows) ->
     fit E self df t =
       (Raise (ValueError "Model parameter is required"),
        (t1 ++ [prepare_data_call self num_processes df])%list)) /\
  (forall trained t', fit E self df t <> (Ok trained, t')) /\
  (exists t', snd (fit E self df t) = (t ++ t')%list /\
              Forall (fun c => is_setup_call c = true) t').
Proof.
  intros Hd Hm.
  assert (forall backend train_rows val_rows metadata avg_row_size t',
     _fit_on_prepared_data E self backend train_rows val_rows metadata avg_row_size t' =
       (Raise (ValueError "Model parameter is required"), t')) as Hraise.
  { intros. apply _fit_on_prepared_data_without_model. exists VNone. now split. }
  split; [exact Hraise|]. unfold fit. rewrite (_fit_after_getters E self df Hd).
  split; [|split].
  - intros backend num_processes t1 prepared Hres Hprep [[[[a b] c] d] Hun].
    unfold bind at 1. rewrite Hres. unfold bind, invoke, lift.
    rewrite Hprep, Hun. apply Hraise.
  - intros trained t'. unfold bind at 1.
    destruct (resolve_backend E _ _ t) as [[[backend n]|e] t1]; [|discriminate].
    unfold bind, invoke, lift. destruct (respond E t1 _) as [prepared|e]; [|discriminate].
    destruct (unpack4 prepared) as [[[[a b] c] d]|e]; [|discriminate].
    rewrite Hraise. discriminate.
  - assert (calls_only (fun c => is_setup_call c = true)
              (resolved <- resolve_backend E (param_value self "num_proc")
                             (param_value self "backend") ;;
               let '(backend, num_processes) := resolved in
               prepared <- invoke E (prepare_data_call self num_processes df) ;;
               unpacked <- lift (unpack4 prepared) ;;
               let '(train_rows, val_rows, metadata, avg_row_size) := unpacked in
               _fit_on_prepared_data E self backend train_rows val_rows metadata
                 avg_row_size)) as Hcalls.
    { apply calls_only_bind; [apply resolve_backend_calls|]. intros [backend n].
      apply calls_only_bind; [now apply calls_only_invoke|]. intros prepared.
      apply calls_only_bind; [apply calls_only_lift|]. intros [[[a b] c] d].
      intros t0. exists []. rewrite Hraise. split; [simpl; now rewrite app_nil_r|constructor]. }
    apply Hcalls.
Qed.

End MissingModel.

(** C1 as stated fails: an estimator without a model makes [fit] call the
    data-preparation collaborator before the error is raised. *)
Lemma fit_without_model_prepares_data :
  ~ (forall (E : Env) (self : Params) (df : value),
       getModel self = Ok VNone ->
       (exists msg, fst (fit E self df []) = Raise (ValueError msg)) /\
       existsb is_data_preparation (snd (fit E self df [])) = false).
Proof.
  intros H.
  destruct (H Example.E0 Example.no_model Example.df0) as [_ Hcalls].
  - vm_compute. reflexivity.
  - vm_compute in Hcalls. discriminate.
Qed.

Lemma estimator_of_has_defaults (kwargs : dict) :
  (exists self, TorchEstimator_init kwargs = Ok self) ->
  has_defaults (Example.estimator_of kwargs).
Proof.
  intros [self H]. unfold Example.estimator_of. rewrite H.
  now apply (TorchEstimator_init_has_defaults kwargs).
Qed.

Lemma no_model_has_defaults : has_defaults Example.no_model.
Proof.
  apply estimator_of_has_defaults.
  destruct (TorchEstimator_init (Example.estimator_kwargs 0 [])) as [self|e] eqn:H; [eauto|].
  vm_compute in H. discriminate.
Qed.

Lemma with_model_has_defaults (store : nat) : has_defaults (Example.with_model store).
Proof.
  apply estimator_of_has_defaults.
  destruct (TorchEstimator_init _) as [self|e] eqn:H; [eauto|].
  vm_compute in H. discriminate.
Qed.

Lemma fit_without_model_witness :
  fit Example.E0 Example.no_model Example.df0 [] =
    (Raise (ValueError "Model parameter is required"),
     ([SparkBackend_new (param_value Example.no_model "num_proc")] ++
      [prepare_data_call Example.no_model (param_value Example.no_model "num_proc")
         Example.df0])%list).
Proof.
  assert (getModel Example.no_model = Ok VNone) as Hm by (vm_compute; reflexivity).
  destruct (fit_without_model Example.E0 Example.no_model Example.df0 []
              no_model_has_defaults Hm) as (_ & H & _).
  apply (H (Example.obj "SparkBackend" 20) (param_value Example.no_model "num_proc")
           [SparkBackend_new (param_value Example.no_model "num_proc")]
           (VTuple [VInt 80; VInt 20; Example.metadata0; VInt 64])).
  - vm_compute. reflexivity.
  - vm_compute. reflexivity.
  - exists (VInt 80, VInt 20, Example.metadata0, VInt 64). vm_compute. reflexivity.
Defined.

Lemma fit_resolves_backend_witness :
  exists t',
    snd (fit Example.E0 (Example.with_model 0) Example.df0 []) =
    ([] ++ SparkBackend_new (param_value (Example.with_model 0) "num_proc") :: t')%list.
Proof.
  destruct (fit_resolves_backend Example.E0 (Example.with_model 0) Example.df0 []
              (with_model_has_defaults 0)) as (_ & H & _).
  apply H; vm_compute; reflexivity.
Defined.

(** ** Checkpoints *)

Section Checkpoints.
Context (E : Env).



End Checkpoints.


(** ** Rounding *)

Lemma round_half_even_nearest_Z (q : Q) :
  2 * Z.abs (round_half_even q * Zpos (Qden q) - Qnum q) <= Zpos (Qden q).
Proof.
  unfold round_half_even.
  pose proof (Z.div_mod (Qnum q) (Zpos (Qden q)) ltac:(lia)) as Hdm.
  pose proof (Z.mod_pos_bound (Qnum q) (Zpos (Qden q)) ltac:(lia)) as Hr.
  set (d := Zpos (Qden q)) in *. set (n := Qnum q) in *.
  set (f := n / d) in *. set (r := n mod d) in *.
  destruct (Z.compare_spec (2 * r) d) as [Heq|Hlt|Hgt].
  - destruct (Z.even f); nia.
  - nia.
  - nia.
Qed.

Lemma round_half_even_nearest (q : Q) :
  (Qabs (inject_Z (round_half_even q) - q) <= 1 # 2)%Q.
Proof.
  pose proof (round_half_even_nearest_Z q) as H.
  destruct q as [n d]. unfold Qle, Qabs, Qminus, Qplus, Qopp, inject_Z. cbn [Qnum Qden] in *.
  rewrite Pos.mul_1_l. lia.
Qed.

Lemma round_between (q : Q) (k : Z) :
  (inject_Z k - (1 # 2) < q)%Q -> (q < inject_Z k + (1 # 2))%Q -> round_half_even q = k.
Proof.
  pose proof (round_half_even_nearest_Z q) as H.
  destruct q as [n d]. unfold Qlt, Qminus, Qplus, Qopp, inject_Z. cbn [Qnum Qden] in *.
  intros Hlo Hhi. nia.
Qed.

Lemma truncate_between (q : Q) (k : Z) :
  0 <= k -> (inject_Z k <= q)%Q -> (q < inject_Z (k + 1))%Q -> truncate q = k.
Proof.
  destruct q as [n d]. unfold Qle, Qlt, truncate, inject_Z. cbn [Qnum Qden].
  intros Hk Hlo Hhi.
  assert (0 <= n) by nia.
  rewrite Z.quot_div_nonneg by lia.
  symmetry. apply (Z.div_unique n (Zpos d) k (n - Zpos d * k)); lia.
Qed.

(** C6: for a scalar label column whose Python type is integral, the
    prediction is rounded to the nearest integer before the cast, not
    truncated; a prediction of 2.7 becomes 3. *)
Theorem integral_prediction_is_rounded (E : Env) (meta col_type : value)
    (python_type : pytype) (pred : tensor) (x : Q) :
  subscript_dict meta "spark_data_type" = Ok col_type ->
  is_class col_type "DenseVector" = false ->
  is_class col_type "SparseVector" = false ->
  spark_scalar_to_python_type E col_type = Ok python_type ->
  is_Integral python_type = true ->
  tensor_data pred = [FFinite x] ->
  field_of E meta pred = py_cast E python_type (VInt (round_half_even x)) /\
  (Qabs (inject_Z (round_half_even x) - x) <= 1 # 2)%Q /\
  (python_type = PyInt -> field_of E meta pred = Ok (VInt (round_half_even x))) /\
  ((5 # 2 < x)%Q -> (x < 3)%Q ->
   python_type = PyInt ->
   field_of E meta pred = Ok (VInt 3) /\ truncate x = 2).
Proof.
  intros Hty Hd Hs Hpy Hint Hx.
  assert (field_of E meta pred = py_cast E python_type (VInt (round_half_even x))) as Heq.
  { unfold field_of. rewrite Hty. cbn [rbind]. rewrite Hd, Hs.
    unfold item. rewrite Hx. cbn [rbind]. rewrite Hpy. cbn [rbind].
    rewrite Hint. reflexivity. }
  split; [exact Heq|]. split; [apply round_half_even_nearest|]. split.
  - intros ->. exact Heq.
  - intros Hlo Hhi ->. split.
    + rewrite Heq. cbn [py_cast py_int]. f_equal. f_equal.
      apply round_between.
      * unfold Qlt, Qminus, Qplus, Qopp, inject_Z in *. destruct x as [n d]. cbn [Qnum Qden] in *. lia.
      * unfold Qlt, Qminus, Qplus, Qopp, inject_Z in *. destruct x as [n d]. cbn [Qnum Qden] in *. lia.
    + apply truncate_between; [lia| |].
      * unfold Qle, Qlt, inject_Z in *. destruct x as [n d]. cbn [Qnum Qden] in *. lia.
      * unfold Qle, Qlt, inject_Z in *. destruct x as [n d]. cbn [Qnum Qden] in *. lia.
Qed.

Lemma integral_prediction_is_rounded_witness :
  field_of Example.E0 Example.integer_meta (Example.tensor1 [(27 # 10)%Q]) = Ok (VInt 3) /\
  truncate (27 # 10)%Q = 2.
Proof.
  assert (subscript_dict Example.integer_meta "spark_data_type" = Ok (VClass "IntegerType"))
    as Hty by (vm_compute; reflexivity).
  assert (spark_scalar_to_python_type Example.E0 (VClass "IntegerType") = Ok PyInt)
    as Hpy by (vm_compute; reflexivity).
  destruct (integral_prediction_is_rounded Example.E0 Example.integer_meta
              (VClass "IntegerType") PyInt (Example.tensor1 [(27 # 10)%Q]) (27 # 10)%Q
              Hty eq_refl eq_refl Hpy eq_refl eq_refl) as (_ & _ & _ & H).
  apply H; [unfold Qlt; simpl; lia | unfold Qlt; simpl; lia | reflexivity].
Defined.

(** ** Sparse outputs *)

(** C7 at work: the sparse vector built for a prediction holds the index of
    the first non-zero entry only.  The example of the specification, with
    one non-zero entry, comes out as expected; with two non-zero entries the
    second one is lost, and with none the lookup of row 0 fails. *)
Theorem sparse_output_keeps_first_nonzero (E : Env) :
  field_of E Example.sparse_meta (Example.tensor1 [0; 0; 31 # 10; 0; 0]%Q) =
    Ok (VSparseVector 5 [2] [FFinite (31 # 10)]) /\
  field_of E Example.sparse_meta (Example.tensor1 [0; 15 # 10; 31 # 10; 0; 0]%Q) =
    Ok (VSparseVector 5 [1] [FFinite (15 # 10)]) /\
  field_of E Example.sparse_meta (Example.tensor1 [0; 0; 0; 0; 0]%Q) =
    Raise (IndexError "index 0 is out of bounds for dimension 0 with size 0").
Proof. repeat split. Qed.

(** ** Optimizers *)

Lemma TorchModel_getOptimizer_eq (E : Env) (self : Params) :
  TorchModel_getOptimizer E self = getOptimizer E self.
Proof. reflexivity. Qed.

(** C10, as the code has it.  When the model is truthy, the stored optimizer
    is an optimizer object, and torch accepts the construction and the
    state, [getOptimizer] answers a new optimizer of the class of the stored
    one, whose [state_dict] is that of the stored one; every optimizer that
    existed before, the stored one included, is left as it was.  When the
    model is falsy ([None], or for instance an empty container),
    [getOptimizer] answers the stored value as it is. *)
Theorem getOptimizer_copies_the_optimizer (E : Env)
    (get : Params -> ST (gmap nat optimizer_data) value)
    (self : Params) (h : gmap nat optimizer_data) (model : value) :
  get = getOptimizer E \/ get = TorchModel_getOptimizer E ->
  getModel self = Ok model ->
  (truthy model = true ->
   forall (o : object) (d : optimizer_data) (params initial : value),
     _get_optimizer self = Ok (VObj o) ->
     h !! obj_id o = Some d ->
     parameters E model = Ok params ->
     optimizer_init E (obj_class o) params 1 = Ok initial ->
     optimizer_accepts E (obj_class o) params (optim_state d) = Ok tt ->
     exists (o' : object) (h' : gmap nat optimizer_data),
       get self h = (Ok (VObj o'), h') /\
       h !! obj_id o' = None /\
       obj_class o' = obj_class o /\
       state_dict (VObj o') h' = (Ok (optim_state d), h') /\
       (forall i x, h !! i = Some x -> h' !! i = Some x)) /\
  (truthy model = false -> get self h = (_get_optimizer self, h)).
Proof.
  intros Hget Hm.
  assert (get = getOptimizer E) as -> by (destruct Hget as [->| ->]; reflexivity).
  split.
  - intros Ht o d params initial Ho Hd Hp Hi Ha.
    set (id := fresh (dom h)).
    assert (h !! id = None) as Hfresh.
    { apply not_elem_of_dom. apply is_fresh. }
    exists {| obj_class := obj_class o; obj_id := id; obj_truth := true |}.
    exists (<[id := {| optim_params := params; optim_state := optim_state d |}]>
              (<[id := {| optim_params := params; optim_state := initial |}]> h)).
    split; [|split; [exact Hfresh|split; [reflexivity|split]]].
    + unfold getOptimizer, bind, lift. rewrite Hm, Ht, Ho.
      unfold state_dict at 1. rewrite Hd. rewrite Hp.
      unfold Optimizer_new. cbn [class_of]. rewrite Hi. fold id.
      unfold load_state_dict. cbn [obj_id obj_class].
      rewrite lookup_insert_eq. cbn [optim_params]. rewrite Ha. reflexivity.
    + unfold state_dict. cbn [obj_id]. now rewrite lookup_insert_eq.
    + intros i x Hx. assert (id <> i) by congruence.
      now rewrite !lookup_insert_ne.
  - intros Hf. unfold getOptimizer, bind, lift. rewrite Hm, Hf.
    now destruct (_get_optimizer self).
Qed.

(** C10 as stated fails: a model that is not [None] may still be falsy, and
    [getOptimizer] then hands out the stored optimizer itself. *)
Lemma getOptimizer_returns_stored_for_falsy_model :
  ~ (forall (E : Env) (self : Params) (h : gmap nat optimizer_data)
            (model : value) (o : object) (d : optimizer_data),
       getModel self = Ok model -> is_None model = false ->
       _get_optimizer self = Ok (VObj o) -> h !! obj_id o = Some d ->
       exists (o' : object) (h' : gmap nat optimizer_data),
         getOptimizer E self h = (Ok (VObj o'), h') /\ h !! obj_id o' = None).
Proof.
  intros H.
  destruct (H Example.E0 (Example.estimator_with Example.empty_sequential Example.sgd)
              Example.heap0 Example.empty_sequential
              {| obj_class := "SGD"; obj_id := 7; obj_truth := true |}
              {| optim_params := VList [VStr "weight"; VStr "bias"];
                 optim_state := VDict [("state", VDict []);
                                       ("param_groups",
                                        VList [VDict [("lr", VFloat (FFinite (1 # 10)))]])] |})
    as (o' & h' & Hret & Hnew).
  - vm_compute. reflexivity.
  - reflexivity.
  - vm_compute. reflexivity.
  - vm_compute. reflexivity.
  - assert (getOptimizer Example.E0
              (Example.estimator_with Example.empty_sequential Example.sgd) Example.heap0 =
            (Ok Example.sgd, Example.heap0)) as Heq by (vm_compute; reflexivity).
    rewrite Heq in Hret. injection Hret as <-.
    vm_compute in Hnew. discriminate.
Qed.

Lemma getOptimizer_copies_the_optimizer_witness :
  (exists (o' : object) (h' : gmap nat optimizer_data),
     getOptimizer Example.E0 (Example.estimator_with (Example.obj "Net" 1) Example.sgd)
       Example.heap0 = (Ok (VObj o'), h') /\
     Example.heap0 !! obj_id o' = None) /\
  getOptimizer Example.E0 (Example.estimator_with VNone Example.sgd) Example.heap0 =
    (_get_optimizer (Example.estimator_with VNone Example.sgd), Example.heap0).
Proof.
  split.
  - assert (getModel (Example.estimator_with (Example.obj "Net" 1) Example.sgd) =
            Ok (Example.obj "Net" 1)) as Hm by (vm_compute; reflexivity).
    destruct (getOptimizer_copies_the_optimizer Example.E0 (getOptimizer Example.E0)
                (Example.estimator_with (Example.obj "Net" 1) Example.sgd) Example.heap0
                (Example.obj "Net" 1) (or_introl eq_refl) Hm) as [H _].
    destruct (H eq_refl {| obj_class := "SGD"; obj_id := 7; obj_truth := true |}
                {| optim_params := VList [VStr "weight"; VStr "bias"];
                   optim_state := VDict [("state", VDict []);
                                         ("param_groups",
                                          VList [VDict [("lr", VFloat (FFinite (1 # 10)))]])] |}
                (VList [VStr "weight"; VStr "bias"]) (VDict []))
      as (o' & h' & Hret & Hnew & _).
    + vm_compute. reflexivity.
    + vm_compute. reflexivity.
    + reflexivity.
    + reflexivity.
    + reflexivity.
    + exists o', h'. split; assumption.
  - assert (getModel (Example.estimator_with VNone Example.sgd) = Ok VNone) as Hm
      by (vm_compute; reflexivity).
    destruct (getOptimizer_copies_the_optimizer Example.E0 (getOptimizer Example.E0)
                (Example.estimator_with VNone Example.sgd) Example.heap0
                VNone (or_introl eq_refl) Hm) as [_ H].
    apply H. reflexivity.
Defined.

(** * Further properties of the code *)

(** ** Construction of an estimator *)

Lemma wrap_scalar_argument (name : string) (d : dict) :
  let d' := if dict_mem name d && negb (is_list_or_tuple (argument name d))
            then dict_set name (VList [argument name d]) d else d in
  dict_keys d' = dict_keys d /\
  forall k v, dict_get k d = Some v ->
    dict_get k d' =
      Some (if String.eqb k name && negb (is_list_or_tuple v) then VList [v] else v).
Proof.
  cbv zeta. unfold argument, dict_mem.
  destruct (dict_get name d) as [x|] eqn:Hx; cbn [andb].
  - destruct (is_list_or_tuple x) eqn:Hlt; cbn [negb].
    + split; [reflexivity|]. intros k v Hk. rewrite Hk. f_equal.
      destruct (String.eqb_spec k name) as [->|Hne]; [|reflexivity].
      assert (v = x) as -> by congruence. now rewrite Hlt.
    + split.
      * apply dict_keys_set_present. apply dict_mem_In. unfold dict_mem. now rewrite Hx.
      * intros k v Hk. destruct (String.eqb_spec k name) as [->|Hne]; cbn [andb].
        -- assert (v = x) as -> by congruence. rewrite Hlt. apply dict_get_set_eq.
        -- rewrite dict_get_set_ne by congruence. exact Hk.
  - split; [reflexivity|]. intros k v Hk. rewrite Hk. f_equal.
    destruct (String.eqb_spec k name) as [->|Hne]; [congruence|reflexivity].
Qed.

(** What [TorchEstimator.__init__] hands to [setParams]. *)
Lemma TorchEstimator_init_sets (kwargs : dict) (self : Params) :
  TorchEstimator_init kwargs = Ok self ->
  NoDup (dict_keys kwargs) /\
  exists kwargs' : dict,
    _set default_estimator kwargs' = Ok self /\
    dict_keys kwargs' = dict_keys kwargs /\
    forall k v, dict_get k kwargs = Some v ->
      dict_get k kwargs' =
        Some (if (String.eqb k "loss" || String.eqb k "loss_constructor")
                 && negb (is_list_or_tuple v)
              then VList [v] else v).
Proof.
  unfold TorchEstimator_init.
  destruct (accepts TorchEstimator_signature kwargs) eqn:Hacc; cbn [negb]; [|discriminate].
  apply accepts_keys in Hacc as [Hnd _].
  rewrite defaults_are_set.
  destruct (dict_mem "loss" kwargs && dict_mem "loss_constructor" kwargs) eqn:Hboth;
    [discriminate|].
  cbv zeta. intros H. split; [exact Hnd|].
  destruct (wrap_scalar_argument "loss" kwargs) as [Hk1 Hg1]. cbv zeta in Hk1, Hg1.
  set (kwargs1 := if dict_mem "loss" kwargs && negb (is_list_or_tuple (argument "loss" kwargs))
                  then dict_set "loss" (VList [argument "loss" kwargs]) kwargs else kwargs) in *.
  assert (argument "loss_constructor" kwargs = argument "loss_constructor" kwargs1) as Harg.
  { unfold argument. destruct (dict_get "loss_constructor" kwargs) as [c|] eqn:Hc.
    - now rewrite (Hg1 _ _ Hc).
    - destruct (dict_get "loss_constructor" kwargs1) as [c|] eqn:Hc1; [|reflexivity].
      exfalso. apply dict_get_In in Hc1.
      assert (In "loss_constructor" (dict_keys kwargs1)) as Hin
        by (apply in_map_iff; now exists ("loss_constructor", c)).
      rewrite Hk1 in Hin. apply dict_mem_In in Hin. unfold dict_mem in Hin.
      now rewrite Hc in Hin. }
  rewrite Harg in H.
  destruct (wrap_scalar_argument "loss_constructor" kwargs1) as [Hk2 Hg2].
  cbv zeta in Hk2, Hg2.
  match type of H with setParams _ ?kw = _ => exists kw end.
  split; [exact H|]. split; [now rewrite Hk2|].
  intros k v Hk. rewrite (Hg2 _ _ (Hg1 _ _ Hk)). f_equal.
  destruct (String.eqb_spec k "loss") as [->|Hne]; cbn [orb andb].
  - change (String.eqb "loss" "loss_constructor") with false. cbn [andb].
    reflexivity.
  - destruct (String.eqb k "loss_constructor"); reflexivity.
Qed.

Lemma default_estimator_default (k : string) (v : value) :
  dict_get k estimator_defaults = Some v ->
  defaultParamMap default_estimator !! k = Some v.
Proof.
  intros H. apply dict_get_In in H.
  unfold estimator_defaults in H. cbn [EstimatorParams_defaults app] in H.
  repeat (destruct H as [[= <- <-]|H]; [vm_compute; reflexivity|]).
  destruct H.
Qed.

Lemma constructor_keeps_defaults_aux (kwargs : dict) (self : Params) (k : string) (v : value) :
  TorchEstimator_init kwargs = Ok self ->
  dict_mem k kwargs = false ->
  dict_get k estimator_defaults = Some v ->
  getOrDefault self k = Ok v.
Proof.
  intros Hinit Hk Hdef.
  apply TorchEstimator_init_sets in Hinit as (_ & kwargs' & Hset & Hkeys & _).
  assert (~ In k (dict_keys kwargs')) as Hnot.
  { rewrite Hkeys. intros Hin. apply dict_mem_In in Hin. congruence. }
  unfold getOrDefault.
  rewrite (_set_other _ _ _ k Hset Hnot), default_estimator_paramMap, lookup_empty.
  apply _set_frame in Hset as [_ ->]. now rewrite (default_estimator_default k v Hdef).
Qed.

(** X1: a parameter that is not passed to the constructor keeps the default
    that [EstimatorParams.__init__] (or [TorchEstimator.__init__], for
    [loss_constructor]) declares for it. *)
Theorem constructor_keeps_defaults (kwargs : dict) (self : Params) (k : string) (v : value) :
  TorchEstimator_init kwargs = Ok self ->
  dict_mem k kwargs = false ->
  dict_get k estimator_defaults = Some v ->
  getOrDefault self k = Ok v.
Proof. apply constructor_keeps_defaults_aux. Qed.

Lemma constructor_keeps_defaults_witness :
  getBatchSize (Example.with_model 0) = Ok (VInt 32).
Proof.
  apply (constructor_keeps_defaults
           (Example.estimator_kwargs 0 [("model", Example.obj "Net" 1)])).
  - unfold Example.with_model, Example.estimator_of.
    destruct (TorchEstimator_init _) as [self|e] eqn:H; [reflexivity|].
    vm_compute in H. discriminate.
  - vm_compute. reflexivity.
  - vm_compute. reflexivity.
Defined.

(** X2: [input_shapes] has no default: an estimator built without it raises
    [KeyError] from [getInputShapes], and [_fit_on_prepared_data], given a
    model, fails on it in the compatibility check, before any call to the
    store or to the backend. *)
Theorem input_shapes_has_no_default (E : Env) (kwargs : dict) (self : Params) :
  TorchEstimator_init kwargs = Ok self ->
  dict_mem "input_shapes" kwargs = false ->
  getInputShapes self = Raise (KeyError "input_shapes") /\
  forall model backend train_rows val_rows metadata avg_row_size t,
    getModel self = Ok model -> truthy model = true ->
    _fit_on_prepared_data E self backend train_rows val_rows metadata avg_row_size t =
      (Raise (KeyError "input_shapes"), t).
Proof.
  intros Hinit Hk.
  pose proof (TorchEstimator_init_has_defaults _ _ Hinit) as Hd.
  apply TorchEstimator_init_sets in Hinit as (_ & kwargs' & Hset & Hkeys & _).
  assert (getInputShapes self = Raise (KeyError "input_shapes")) as Hshape.
  { assert (~ In "input_shapes" (dict_keys kwargs')) as Hnot.
    { rewrite Hkeys. intros Hin. apply dict_mem_In in Hin. congruence. }
    unfold getInputShapes, getOrDefault.
    rewrite (_set_other _ _ _ _ Hset Hnot), default_estimator_paramMap, lookup_empty.
    apply _set_frame in Hset as [_ ->]. reflexivity. }
  split; [exact Hshape|].
  intros model backend train_rows val_rows metadata avg_row_size t Hm Ht.
  unfold _fit_on_prepared_data, bind, lift. rewrite Hm, Ht. cbn [negb].
  unfold _check_model_compatibility, getFeatureCols, getLabelCols.
  rewrite !(getter_value self _ Hd) by default_key. cbn [rbind].
  now rewrite Hshape.
Qed.

Lemma input_shapes_has_no_default_witness :
  getInputShapes (Example.estimator_of [("num_proc", VInt 2)]) =
    Raise (KeyError "input_shapes").
Proof.
  apply (input_shapes_has_no_default Example.E0 [("num_proc", VInt 2)]).
  - unfold Example.estimator_of.
    destruct (TorchEstimator_init _) as [self|e] eqn:H; [reflexivity|].
    vm_compute in H. discriminate.
  - vm_compute. reflexivity.
Defined.

(** X3: a [loss] given as a list or a tuple is stored as it is, and a
    [loss_constructor] that is neither is stored as the one-element list
    holding it. *)
Theorem loss_list_kept_and_constructor_wrapped (kwargs : dict) (self : Params) :
  TorchEstimator_init kwargs = Ok self ->
  (forall loss, dict_get "loss" kwargs = Some loss -> is_list_or_tuple loss = true ->
     getLoss self = Ok loss) /\
  (forall c, dict_get "loss_constructor" kwargs = Some c ->
     getLossConstructors self =
       Ok (if is_list_or_tuple c then c else VList [c])).
Proof.
  intros Hinit.
  apply TorchEstimator_init_sets in Hinit as (Hnd & kwargs' & Hset & Hkeys & Hget).
  rewrite <- Hkeys in Hnd.
  assert (forall k v, dict_get k kwargs' = Some v ->
            declared_converter k estimator_params = Some identity ->
            getOrDefault self k = Ok v) as Hread.
  { intros k v Hk Hid.
    destruct (_set_lookup _ _ _ k v Hnd Hk Hset) as (v' & Hv' & Hl).
    rewrite converted_identity in Hv' by (now rewrite default_estimator_declared).
    injection Hv' as <-. now apply getOrDefault_set. }
  split.
  - intros loss Hl Hlt. apply Hread; [|reflexivity].
    rewrite (Hget _ _ Hl). cbn [String.eqb orb andb]. now rewrite Hlt.
  - intros c Hc. apply Hread; [|reflexivity].
    rewrite (Hget _ _ Hc). f_equal.
    change (String.eqb "loss_constructor" "loss") with false.
    change (String.eqb "loss_constructor" "loss_constructor") with true.
    cbn [orb andb]. now destruct (is_list_or_tuple c).
Qed.

Lemma loss_list_kept_and_constructor_wrapped_witness :
  getLoss (Example.estimator_of [("loss", VList [VStr "mse"; VStr "mae"])]) =
    Ok (VList [VStr "mse"; VStr "mae"]).
Proof.
  apply (loss_list_kept_and_constructor_wrapped [("loss", VList [VStr "mse"; VStr "mae"])]).
  - unfold Example.estimator_of.
    destruct (TorchEstimator_init _) as [self|e] eqn:H; [reflexivity|].
    vm_compute in H. discriminate.
  - reflexivity.
  - reflexivity.
Defined.

(** ** Setting and reading parameters *)

Lemma _set_fails (kwargs : dict) (self : Params) (k : string) (v : value) (e : exn) :
  In (k, v) kwargs ->
  converted "Invalid param value given for param " (declared self) k v = Raise e ->
  exists e', _set self kwargs = Raise e'.
Proof.
  revert self. induction kwargs as [|[k0 v0] kwargs IH]; intros self Hin Hc; [destruct Hin|].
  cbn [_set]. destruct Hin as [[= -> ->]|Hin].
  - rewrite Hc. cbn [rbind]. eauto.
  - destruct (converted _ (declared self) k0 v0) as [v'|e0]; cbn [rbind]; [|eauto].
    apply IH; [exact Hin|exact Hc].
Qed.

(** A keyword argument of the constructor other than the two losses is
    stored converted by the converter of its parameter. *)
Lemma constructed_param (kwargs : dict) (self : Params) (k : string) (v : value) :
  TorchEstimator_init kwargs = Ok self ->
  dict_get k kwargs = Some v ->
  k <> "loss" -> k <> "loss_constructor" ->
  exists v',
    converted "Invalid param value given for param " estimator_params k v = Ok v' /\
    getOrDefault self k = Ok v'.
Proof.
  intros Hinit Hk Hl Hc.
  apply TorchEstimator_init_sets in Hinit as (Hnd & kwargs' & Hset & Hkeys & Hget).
  rewrite <- Hkeys in Hnd. specialize (Hget _ _ Hk).
  apply String.eqb_neq in Hl, Hc. rewrite Hl, Hc in Hget. cbn [orb andb] in Hget.
  destruct (_set_lookup _ _ _ k v Hnd Hget Hset) as (v' & Hv' & Hlook).
  rewrite default_estimator_declared in Hv'.
  exists v'. split; [exact Hv'|]. now apply getOrDefault_set.
Qed.

(** X4: a keyword argument that the converter of its parameter rejects makes
    the constructor fail: no estimator is built with, say, a [batch_size]
    that is a string. *)
Theorem constructor_rejects_unconvertible (kwargs : dict) (k : string) (v : value) (e : exn) :
  dict_get k kwargs = Some v ->
  k <> "loss" -> k <> "loss_constructor" ->
  converted "Invalid param value given for param " estimator_params k v = Raise e ->
  exists e', TorchEstimator_init kwargs = Raise e'.
Proof.
  intros Hk Hl Hc Hconv.
  destruct (TorchEstimator_init kwargs) as [self|e'] eqn:Hinit; [|eauto].
  exfalso.
  destruct (constructed_param kwargs self k v Hinit Hk Hl Hc) as (v' & Hv' & _).
  congruence.
Qed.

Lemma constructor_rejects_unconvertible_witness :
  exists e', TorchEstimator_init [("num_proc", VInt 2); ("batch_size", VStr "large")] = Raise e'.
Proof.
  apply (constructor_rejects_unconvertible _ "batch_size" (VStr "large")
           (TypeError ("Invalid param value given for param " ++ dquote ++ "batch_size"
                       ++ dquote ++ ". " ++ "Could not convert value to int"))).
  - reflexivity.
  - discriminate.
  - discriminate.
  - vm_compute. reflexivity.
Defined.

(** X5: [setRunId] takes [None] or a string and stores it unchanged,
    leaving every other parameter as it was; any other value is refused
    with a [TypeError] and nothing is stored. *)
Theorem setRunId_accepts_strings_only (self : Params) (v : value) :
  declared self = estimator_params ->
  ((is_None v = true \/ exists s, v = VStr s) ->
   exists self',
     setRunId self v = Ok self' /\
     getRunId self' = Ok v /\
     forall k, k <> "run_id" -> getOrDefault self' k = getOrDefault self k) /\
  (~ (is_None v = true \/ exists s, v = VStr s) ->
   exists msg, setRunId self v = Raise (TypeError msg)).
Proof.
  intros Hdecl. unfold setRunId. cbn [_set]. unfold converted. rewrite Hdecl.
  change (declared_converter "run_id" estimator_params) with (Some toString).
  split.
  - intros Hv.
    assert ((if is_None v then Ok v
             else match convert toString v with
                  | Ok v' => Ok v'
                  | Raise e => Raise (rewrap "Invalid param value given for param " "run_id" e)
                  end) = Ok v) as ->.
    { destruct Hv as [Hn|[s ->]]; [now rewrite Hn|reflexivity]. }
    cbn [rbind]. eexists. split; [reflexivity|]. split.
    + unfold getRunId. apply getOrDefault_set. simpl. apply lookup_insert_eq.
    + intros k Hk. unfold getOrDefault. simpl.
      now rewrite lookup_insert_ne by congruence.
  - intros Hv. destruct v; try (cbn; eauto; fail).
    + exfalso. apply Hv. now left.
    + exfalso. apply Hv. right. eauto.
Qed.

Lemma setRunId_accepts_strings_only_witness :
  exists msg, setRunId default_estimator (VInt 7) = Raise (TypeError msg).
Proof.
  apply (setRunId_accepts_strings_only default_estimator (VInt 7)
           default_estimator_declared).
  intros [H|[s H]]; discriminate.
Defined.

(** X6: [_should_validate] on a constructed estimator: true as soon as a
    validation column is given; false when neither a validation column nor
    a validation split is given (the default split is 0.0); otherwise true
    exactly when the split is positive. *)
Theorem should_validate_of_constructed (kwargs : dict) (self : Params) :
  TorchEstimator_init kwargs = Ok self ->
  (forall c, dict_get "validation_col" kwargs = Some (VStr c) ->
     _should_validate self = Ok (VBool true)) /\
  (dict_mem "validation_col" kwargs = false ->
   dict_mem "validation_split" kwargs = false ->
   _should_validate self = Ok (VBool false)) /\
  (dict_mem "validation_col" kwargs = false ->
   forall q, dict_get "validation_split" kwargs = Some (VFloat (FFinite q)) ->
     _should_validate self = Ok (VBool (Z.ltb 0 (Qnum q)))).
Proof.
  intros Hinit. unfold _should_validate, getValidationCol, getValidationSplit.
  split; [|split].
  - intros c Hc.
    destruct (constructed_param _ _ _ _ Hinit Hc) as (v' & Hv' & ->); [discriminate..|].
    injection Hv' as <-. reflexivity.
  - intros Hc Hs.
    rewrite (constructor_keeps_defaults_aux kwargs self "validation_col" VNone Hinit Hc eq_refl).
    rewrite (constructor_keeps_defaults_aux kwargs self "validation_split"
               (VFloat (FFinite 0%Q)) Hinit Hs eq_refl).
    reflexivity.
  - intros Hc q Hs.
    rewrite (constructor_keeps_defaults_aux kwargs self "validation_col" VNone Hinit Hc eq_refl).
    destruct (constructed_param _ _ _ _ Hinit Hs) as (v' & Hv' & ->); [discriminate..|].
    injection Hv' as <-. reflexivity.
Qed.

Lemma should_validate_of_constructed_witness :
  _should_validate (Example.with_model 0) = Ok (VBool false).
Proof.
  apply (should_validate_of_constructed
           (Example.estimator_kwargs 0 [("model", Example.obj "Net" 1)])).
  - unfold Example.with_model, Example.estimator_of.
    destruct (TorchEstimator_init _) as [self|e] eqn:H; [reflexivity|].
    vm_compute in H. discriminate.
  - vm_compute. reflexivity.
  - vm_compute. reflexivity.
Defined.

(** ** The training flow *)

Lemma bind_Ok {S A B : Type} (m : ST S A) (f : A -> ST S B) (s s2 : S) (b : B) :
  bind m f s = (Ok b, s2) ->
  exists a s1, m s = (Ok a, s1) /\ f a s1 = (Ok b, s2).
Proof.
  unfold bind. destruct (m s) as [[a|e] s1]; [eauto|discriminate].
Qed.

Lemma lift_Ok {S A : Type} (r : result A) (s s1 : S) (a : A) :
  lift r s = (Ok a, s1) -> r = Ok a /\ s1 = s.
Proof. unfold lift. now intros [= -> ->]. Qed.

Lemma bind_lift_Ok {S A B : Type} (a : A) (f : A -> ST S B) :
  bind (lift (Ok a)) f = f a.
Proof. reflexivity. Qed.

Lemma calls_only_result {A : Type} (P : call -> Prop) (m : ST (list call) A)
    (t t2 : list call) (r : result A) :
  calls_only P m -> m t = (r, t2) -> exists t', t2 = (t ++ t')%list /\ Forall P t'.
Proof.
  intros Hm H. destruct (Hm t) as (t' & Ht' & HP). rewrite H in Ht'. eauto.
Qed.

Lemma bind_assoc_at {S A B C : Type} (m : ST S A) (f : A -> ST S B) (g : B -> ST S C)
    (s : S) :
  bind (bind m f) g s = bind m (fun a => bind (f a) g) s.
Proof. unfold bind. now destruct (m s) as [[a|e] s1]. Qed.

Lemma invoke_first {B : Type} (E : Env) (c : call) (k : value -> ST (list call) B)
    (s : list call) :
  (forall a, calls_only (fun _ => True) (k a)) ->
  exists t', snd (bind (invoke E c) k s) = (s ++ c :: t')%list.
Proof.
  intros Hk. unfold bind, invoke. destruct (respond E s c) as [a|e].
  - destruct (Hk a (s ++ [c])%list) as (t' & Ht' & _). exists t'.
    rewrite Ht'. now rewrite <- app_assoc.
  - exists []. reflexivity.
Qed.

Section Training.
Context (E : Env).

(** X7: [fit_on_parquet] goes straight to the stored metadata: its first
    call reads it from the store, it neither validates [num_proc] against
    [backend] nor constructs a backend or prepares data, and it goes on with
    the [backend] parameter as it is. *)
Theorem fit_on_parquet_skips_backend_resolution (self : Params) (t : list call) :
  has_defaults self ->
  (exists t',
     snd (fit_on_parquet E self t) = (t ++ simple_meta_call self :: t')%list /\
     Forall (fun c => is_setup_call c = false) t') /\
  (forall meta train_rows val_rows metadata avg_row_size,
     respond E t (simple_meta_call self) = Ok meta ->
     unpack4 meta = Ok (train_rows, val_rows, metadata, avg_row_size) ->
     fit_on_parquet E self t =
       _fit_on_prepared_data E self (param_value self "backend")
         train_rows val_rows metadata avg_row_size (t ++ [simple_meta_call self])%list).
Proof.
  intros Hd. unfold fit_on_parquet, _fit_on_parquet, simple_meta_call.
  unfold getBackend, getStore, getLabelCols, getFeatureCols, getSampleWeightCol.
  rewrite !(getter_value self _ Hd) by default_key.
  rewrite !bind_lift_Ok. split.
  - unfold bind at 1, invoke at 1.
    destruct (respond E t _) as [meta|e]; [|exists []; split; [reflexivity|constructor]].
    match goal with
    | |- context [snd (?k (t ++ [?c])%list)] =>
        assert (calls_only (fun c' => is_setup_call c' = false) k) as Hk
    end.
    { apply calls_only_bind; [apply calls_only_lift|]. intros [[[a b] c] d].
      eapply calls_only_weaken; [|apply _fit_on_prepared_data_calls]. now intros c0 [H _]. }
    destruct (Hk (t ++ [util_get_simple_meta_from_parquet (param_value self "store")
                          (param_value self "label_cols") (param_value self "feature_cols")
                          (param_value self "sample_weight_col")])%list)
      as (t' & Ht' & HP).
    exists t'. split; [|exact HP]. rewrite Ht'. now rewrite <- app_assoc.
  - intros meta train_rows val_rows metadata avg_row_size Hmeta Hun.
    unfold bind, invoke, lift. now rewrite Hmeta, Hun.
Qed.

Lemma run_id_calls (run_id : value) :
  calls_only (fun c => is_backend_run c = false)
    (if is_None run_id then
       now <- invoke E time_time ;;
       secs <- lift (py_int now) ;;
       match secs with
       | VInt n => ret (VStr ("pytorch_" ++ str_of_int n))
       | _ => raise (TypeError "int() did not return an int")
       end
     else ret run_id).
Proof. trace_steps; reflexivity. Qed.

Lemma last_checkpoint_state_of_calls (self : Params) (run_id : value) :
  calls_only (fun c => is_backend_run c = false /\ is_clock c = false)
    (last_checkpoint_state_of E self run_id).
Proof.
  unfold last_checkpoint_state_of, _has_checkpoint, _load_checkpoint.
  trace_steps; split; reflexivity.
Qed.

(** X8: a fit that succeeds has dispatched exactly once: [backend.run] is
    its last call, it is given the serialized model of the estimator and the
    rows and row size it received, and the trained model is built from what
    that call answered. *)
Theorem successful_fit_dispatches_once (self : Params)
    (backend train_rows val_rows metadata avg_row_size : value)
    (t t2 : list call) (trained : Params) :
  _fit_on_prepared_data E self backend train_rows val_rows metadata avg_row_size t =
    (Ok trained, t2) ->
  exists (before : list call) (trainer serialized_model run_id handle : value),
    let dispatch :=
      backend_run backend trainer serialized_model train_rows val_rows avg_row_size in
    t2 = (t ++ before ++ [dispatch])%list /\
    Forall (fun c => is_backend_run c = false) before /\
    (exists model, getModel self = Ok model /\ serialize E model = Ok serialized_model) /\
    respond E (t ++ before) dispatch = Ok handle /\
    _create_model E self handle run_id metadata = Ok trained.
Proof.
  intros H. unfold _fit_on_prepared_data in H.
  apply bind_Ok in H as (model & s & Hm & H). apply lift_Ok in Hm as [Hm ->].
  destruct (truthy model); cbn [negb] in H; [|discriminate].
  apply bind_Ok in H as (u & s & Hc & H). apply lift_Ok in Hc as [_ ->].
  apply bind_Ok in H as (run_id0 & s & Hr & H). apply lift_Ok in Hr as [_ ->].
  apply bind_Ok in H as (run_id & t1 & Hrun & H).
  apply (calls_only_result _ _ _ _ _ (run_id_calls run_id0)) in Hrun as (b1 & -> & Hb1).
  apply bind_Ok in H as (state & t3 & Hst & H).
  apply (calls_only_result _ _ _ _ _ (last_checkpoint_state_of_calls self run_id)) in Hst
    as (b2 & -> & Hb2).
  apply bind_Ok in H as (serialized_model & s & Hs & H). apply lift_Ok in Hs as [Hs ->].
  apply bind_Ok in H as (trainer & s & Htr & H). apply lift_Ok in Htr as [_ ->].
  apply bind_Ok in H as (handle & s & Hrunc & H). apply lift_Ok in H as [Hcreate ->].
  unfold invoke in Hrunc. injection Hrunc as Hresp <-.
  exists (b1 ++ b2)%list, trainer, serialized_model, run_id, handle. cbv zeta.
  rewrite !app_assoc in *. split; [reflexivity|]. split.
  - apply Forall_app. split; [exact Hb1|].
    eapply Forall_impl; [exact Hb2|]. now intros c [Hc' _].
  - split; [eauto|]. split; [exact Hresp|exact Hcreate].
Qed.

(** X9: when a [run_id] is given the clock is never read; when none is
    given, the clock is read first and the checkpoint is looked up under
    ['pytorch_'] followed by the whole seconds of the time read. *)
Theorem run_id_from_the_clock (self : Params)
    (backend train_rows val_rows metadata avg_row_size : value) (t : list call) :
  (forall run_id, getRunId self = Ok run_id -> is_None run_id = false ->
     exists t',
       snd (_fit_on_prepared_data E self backend train_rows val_rows metadata avg_row_size t)
         = (t ++ t')%list /\
       Forall (fun c => is_clock c = false) t') /\
  (forall model store now n,
     getModel self = Ok model -> truthy model = true ->
     _check_model_compatibility E self metadata = Ok tt ->
     getRunId self = Ok VNone ->
     getStore self = Ok store ->
     respond E t time_time = Ok now -> py_int now = Ok (VInt n) ->
     exists t',
       snd (_fit_on_prepared_data E self backend train_rows val_rows metadata avg_row_size t)
         = (t ++ time_time ::
                 store_get_checkpoint_path store (VStr ("pytorch_" ++ str_of_int n)) :: t')%list).
Proof.
  split.
  - intros run_id Hr Hn.
    assert (calls_only (fun c => is_clock c = false)
              (_fit_on_prepared_data E self backend train_rows val_rows metadata
                 avg_row_size)) as Hcalls; [|apply Hcalls].
    unfold _fit_on_prepared_data. rewrite Hr.
    apply calls_only_bind; [apply calls_only_lift|]. intros model.
    destruct (negb (truthy model)); [apply calls_only_raise|].
    apply calls_only_bind; [apply calls_only_lift|]. intros _.
    rewrite bind_lift_Ok. rewrite Hn.
    apply calls_only_bind; [apply calls_only_ret|]. intros r.
    apply calls_only_bind.
    { eapply calls_only_weaken; [|apply last_checkpoint_state_of_calls]. now intros c [_ Hc]. }
    intros state. trace_steps; reflexivity.
  - intros model store now n Hm Ht Hc Hr Hs Hnow Hint.
    unfold _fit_on_prepared_data. rewrite Hm, Hc, Hr. rewrite bind_lift_Ok, Ht. cbn [negb].
    rewrite !bind_lift_Ok. cbn [is_None].
    rewrite bind_assoc_at. unfold bind at 1, invoke at 1. rewrite Hnow.
    rewrite bind_assoc_at. unfold bind at 1, lift at 1. rewrite Hint.
    unfold bind at 1, ret at 1.
    unfold last_checkpoint_state_of, _has_checkpoint. rewrite Hs. rewrite bind_lift_Ok.
    rewrite !bind_assoc_at.
    match goal with
    | |- context [snd (bind (invoke E ?c) ?k ?s)] =>
        destruct (invoke_first E c k s) as [t' Ht']
    end.
    { intros a. unfold _load_checkpoint. trace_steps; exact I. }
    exists t'. rewrite Ht'. now rewrite <- app_assoc.
Qed.

End Training.

Lemma fit_on_parquet_skips_backend_resolution_witness :
  exists t',
    snd (fit_on_parquet Example.E0 (Example.with_model 0) []) =
      ([] ++ simple_meta_call (Example.with_model 0) :: t')%list /\
    Forall (fun c => is_setup_call c = false) t'.
Proof.
  exact (proj1 (fit_on_parquet_skips_backend_resolution Example.E0 (Example.with_model 0) []
                  (with_model_has_defaults 0))).
Defined.

Lemma successful_fit_dispatches_once_witness :
  exists (before : list call) (trainer serialized_model : value),
    snd Example.fitted0 =
      ([] ++ before ++
       [backend_run (Example.obj "SparkBackend" 20) trainer serialized_model
          (VInt 80) (VInt 20) (VInt 64)])%list.
Proof.
  unfold Example.fitted0.
  destruct (_fit_on_prepared_data Example.E0 (Example.with_model 0)
              (Example.obj "SparkBackend" 20) (VInt 80) (VInt 20) Example.metadata0
              (VInt 64) []) as [[trained|e] t2] eqn:H.
  - destruct (successful_fit_dispatches_once Example.E0 _ _ _ _ _ _ _ _ _ H)
      as (before & trainer & serialized_model & run_id & handle & Ht2 & _).
    exists before, trainer, serialized_model. exact Ht2.
  - exfalso. vm_compute in H. discriminate.
Defined.

Lemma run_id_from_the_clock_witness :
  exists t',
    snd Example.fitted0 = ([] ++ t')%list /\ Forall (fun c => is_clock c = false) t'.
Proof.
  destruct (run_id_from_the_clock Example.E0 (Example.with_model 0)
              (Example.obj "SparkBackend" 20) (VInt 80) (VInt 20) Example.metadata0
              (VInt 64) []) as [H _].
  apply (H (VStr "R1")); vm_compute; reflexivity.
Defined.

(** ** The trained model *)

Lemma converted_unchanged (prefix : string) (ds : list (string * converter))
    (k : string) (v v' : value) :
  (declared_converter k ds = Some identity \/ declared_converter k ds = Some toString) ->
  converted prefix ds k v = Ok v' -> v' = v.
Proof.
  unfold converted. intros [-> | ->].
  - destruct (is_None v); now intros [= <-].
  - destruct (is_None v); [now intros [= <-]|].
    destruct v; cbn; intros H; now inversion H.
Qed.

Lemma TorchModel_init_declared (kwargs : dict) (self : Params) :
  TorchModel_init kwargs = Ok self -> declared self = model_params.
Proof.
  unfold TorchModel_init. intros Hinit.
  destruct (accepts TorchModel_signature kwargs); cbn [negb] in Hinit; [|discriminate].
  destruct (if truthy (argument "label_columns" kwargs) then _ else _) as [self1|e] eqn:H1;
    cbn [rbind] in Hinit; [|discriminate].
  unfold setParams in Hinit. apply _set_frame in Hinit as [-> _].
  destruct (truthy (argument "label_columns" kwargs)).
  - destruct (iterate _) as [cols|]; cbn [rbind] in H1; [|discriminate].
    destruct (result_map _ cols) as [outs|]; cbn [rbind] in H1; [|discriminate].
    unfold setOutputCols in H1. now apply _set_frame in H1 as [-> _].
  - now injection H1 as <-.
Qed.

Lemma TorchModel_init_reads (kwargs : dict) (self : Params) (k : string) (v : value) :
  TorchModel_init kwargs = Ok self ->
  dict_get k kwargs = Some v ->
  (declared_converter k model_params = Some identity \/
   declared_converter k model_params = Some toString) ->
  getOrDefault self k = Ok v.
Proof.
  intros Hinit Hget Hconv. pose proof Hinit as Hinit'. unfold TorchModel_init in Hinit.
  destruct (accepts TorchModel_signature kwargs) eqn:Hacc; cbn [negb] in Hinit; [|discriminate].
  apply accepts_keys in Hacc as [Hnd _].
  destruct (if truthy (argument "label_columns" kwargs) then _ else _) as [self1|e] eqn:H1;
    cbn [rbind] in Hinit; [|discriminate].
  unfold setParams in Hinit.
  destruct (_set_lookup _ _ _ k v Hnd Hget Hinit) as (v' & Hv' & Hl).
  assert (declared self1 = model_params) as Hdecl.
  { apply _set_frame in Hinit as [<- _]. now apply (TorchModel_init_declared kwargs). }
  rewrite Hdecl in Hv'. apply converted_unchanged in Hv'; [|exact Hconv]. subst v'.
  now apply getOrDefault_set.
Qed.

(** X10: the trained model carries the configuration of the estimator: its
    feature columns, label columns and input shapes are those of the
    estimator, its run id and metadata are the ones the training ran with,
    and it has the parameters of a [TorchModel]. *)
Theorem trained_model_carries_configuration (E : Env) (self : Params)
    (run_results run_id metadata : value) (trained : Params) :
  _create_model E self run_results run_id metadata = Ok trained ->
  getFeatureColumns trained = getFeatureCols self /\
  getLabelColumns trained = getLabelCols self /\
  getInputShapes trained = getInputShapes self /\
  getRunId trained = Ok run_id /\
  _get_metadata trained = Ok metadata /\
  declared trained = model_params.
Proof.
  intros H. unfold _create_model in H.
  destruct (subscript_index run_results 0) as [first|]; cbn [rbind] in H; [|discriminate].
  destruct (unpack3 first) as [[[history sm] so]|]; cbn [rbind] in H; [|discriminate].
  destruct (loads_base64 E sm) as [model|]; cbn [rbind] in H; [|discriminate].
  destruct (loads_base64 E so) as [bio|]; cbn [rbind] in H; [|discriminate].
  destruct (torch_load E bio (Some "cpu")) as [opt|]; cbn [rbind] in H; [|discriminate].
  unfold _get_model_kwargs in H.
  destruct (getFeatureCols self) as [fc|]; cbn [rbind] in H; [|discriminate].
  destruct (getInputShapes self) as [ish|]; cbn [rbind] in H; [|discriminate].
  destruct (getLabelCols self) as [lc|]; cbn [rbind] in H; [|discriminate].
  repeat split.
  - unfold getFeatureColumns. eapply TorchModel_init_reads; [exact H|reflexivity|now left].
  - unfold getLabelColumns. eapply TorchModel_init_reads; [exact H|reflexivity|now left].
  - unfold getInputShapes. eapply TorchModel_init_reads; [exact H|reflexivity|now left].
  - unfold getRunId. eapply TorchModel_init_reads; [exact H|reflexivity|now right].
  - unfold _get_metadata. eapply TorchModel_init_reads; [exact H|reflexivity|now left].
  - now apply (TorchModel_init_declared _ _ H).
Qed.

Lemma trained_model_carries_configuration_witness :
  getRunId Example.trained0 = Ok (VStr "R1").
Proof.
  refine (proj1 (proj2 (proj2 (proj2
            (trained_model_carries_configuration Example.E0 (Example.with_model 0)
               Example.run_results0 (VStr "R1") Example.metadata0 Example.trained0 _))))).
  unfold Example.trained0.
  destruct (_create_model Example.E0 (Example.with_model 0) Example.run_results0
              (VStr "R1") Example.metadata0) as [trained|e] eqn:H; [reflexivity|].
  vm_compute in H. discriminate.
Defined.

(** X11: [_create_model] needs a first result with three fields: without
    any result it raises [IndexError], with a first result of another
    length it raises [ValueError], and whenever it succeeds the first
    element of the results unpacks into exactly three values. *)
Theorem create_model_needs_a_first_result (E : Env) (self : Params) (run_id metadata : value) :
  _create_model E self (VList []) run_id metadata = Raise (IndexError "index out of range") /\
  (forall fields others,
     length fields <> 3%nat ->
     _create_model E self (VList (VTuple fields :: others)) run_id metadata =
       Raise (ValueError "wrong number of values to unpack")) /\
  (forall run_results trained,
     _create_model E self run_results run_id metadata = Ok trained ->
     exists first history serialized_model serialized_optimizer,
       subscript_index run_results 0 = Ok first /\
       iterate first = Ok [history; serialized_model; serialized_optimizer]).
Proof.
  split; [reflexivity|]. split.
  - intros fields others Hlen. unfold _create_model.
    cbn [subscript_index nth_error rbind]. unfold unpack3. cbn [iterate rbind].
    destruct fields as [|a [|b [|c [|d fields]]]]; try reflexivity.
    now contradiction Hlen.
  - intros run_results trained H. unfold _create_model in H.
    destruct (subscript_index run_results 0) as [first|] eqn:Hfirst; cbn [rbind] in H;
      [|discriminate].
    unfold unpack3 in H.
    destruct (iterate first) as [vs|] eqn:Hvs; cbn [rbind] in H; [|discriminate].
    destruct vs as [|a [|b [|c [|d vs]]]]; cbn [rbind] in H; try discriminate.
    exists first, a, b, c. now split.
Qed.

Lemma create_model_needs_a_first_result_witness :
  _create_model Example.E0 (Example.with_model 0)
    (VList [VTuple [VStr "history"; VStr "model"]]) (VStr "R1") Example.metadata0 =
  Raise (ValueError "wrong number of values to unpack").
Proof.
  apply (create_model_needs_a_first_result Example.E0 (Example.with_model 0)
           (VStr "R1") Example.metadata0).
  simpl. lia.
Defined.

(** ** Decoding predictions *)



Lemma nonzero_from_first (xs : list pyfloat) (i : Z) (row : list Z) (rows : list (list Z)) :
  nonzero_from i xs = row :: rows ->
  exists (k : nat) (x : pyfloat),
    row = [i + Z.of_nat k] /\
    nth_error xs k = Some x /\ float_nonzero x = true /\
    forall j y, (j < k)%nat -> nth_error xs j = Some y -> float_nonzero y = false.
Proof.
  revert i. induction xs as [|x xs IH]; intros i H; [discriminate|].
  cbn [nonzero_from] in H. destruct (float_nonzero x) eqn:Hx.
  - injection H as <- _. exists 0%nat, x. rewrite Z.add_0_r.
    repeat split; try reflexivity; [exact Hx|]. intros j y Hj. lia.
  - destruct (IH (i + 1) H) as (k & x' & -> & Hn & Hnz & Hbefore).
    exists (S k), x'. repeat split.
    + f_equal. lia.
    + exact Hn.
    + exact Hnz.
    + intros [|j] y Hj Hy.
      * cbn in Hy. now injection Hy as <-.
      * apply (Hbefore j y); [lia|exact Hy].
Qed.

Lemma nonzero_from_none (xs : list pyfloat) (i : Z) :
  Forall (fun x => float_nonzero x = false) xs -> nonzero_from i xs = [].
Proof.
  intros H. revert i. induction H as [|x xs Hx _ IH]; intros i; [reflexivity|].
  cbn [nonzero_from]. now rewrite Hx.
Qed.

(** X13: the sparse vector built for a prediction holds one entry, the
    first non-zero entry of the prediction with its index; a prediction
    without any non-zero entry is refused with an [IndexError]. *)
Theorem sparse_prediction_keeps_one_entry (E : Env) (meta : value) (pred : tensor) :
  subscript_dict meta "spark_data_type" = Ok (VClass "SparseVector") ->
  (forall out, field_of E meta pred = Ok out ->
     exists (size : Z) (i : nat) (x : pyfloat),
       out = VSparseVector size [Z.of_nat i] [x] /\
       nth_error (tensor_data pred) i = Some x /\
       float_nonzero x = true /\
       forall j y, (j < i)%nat -> nth_error (tensor_data pred) j = Some y ->
                   float_nonzero y = false) /\
  (subscript_dict meta "shape" = Ok (VInt (Z.of_nat (length (tensor_data pred)))) ->
   Forall (fun x => float_nonzero x = false) (tensor_data pred) ->
   field_of E meta pred =
     Raise (IndexError "index 0 is out of bounds for dimension 0 with size 0")).
Proof.
  intros Hty. unfold field_of. rewrite Hty. cbn [rbind is_class].
  change (String.eqb "SparseVector" "DenseVector") with false.
  change (String.eqb "SparseVector" "SparseVector") with true. cbv iota.
  split.
  - intros out H.
    destruct (subscript_dict meta "shape") as [shape|]; cbn [rbind] in H; [|discriminate].
    destruct (reshape pred shape) as [flat|] eqn:Hflat; cbn [rbind] in H; [|discriminate].
    assert (tensor_data flat = tensor_data pred) as Hdata.
    { unfold reshape in Hflat. destruct shape; try discriminate.
      destruct (_ || _); [|discriminate]. now injection Hflat as <-. }
    unfold nonzero in H. rewrite Hdata in H.
    destruct (nonzero_from 0 (tensor_data pred)) as [|row rows] eqn:Hnz;
      cbn [first_row rbind] in H; [discriminate|].
    destruct (nonzero_from_first _ _ _ _ Hnz) as (k & x & -> & Hk & Hx & Hbefore).
    rewrite Z.add_0_l in H. unfold index_select in H. cbn [result_map] in H.
    rewrite Hdata, Nat2Z.id, Hk in H.
    assert (Z.leb 0 (Z.of_nat k) = true) as Hle by (apply Z.leb_le; lia).
    rewrite Hle in H. cbn [rbind] in H.
    unfold SparseVector in H. destruct shape; try discriminate.
    cbn in H. injection H as <-. exists n, k, x. auto.
  - intros Hsh Hzero. rewrite Hsh. cbn [rbind]. unfold reshape.
    rewrite Z.eqb_refl. cbn [orb rbind]. unfold nonzero. cbn [tensor_data].
    now rewrite nonzero_from_none.
Qed.

Lemma sparse_prediction_keeps_one_entry_witness :
  field_of Example.E0
    (VDict [("spark_data_type", VClass "SparseVector"); ("shape", VInt 3)])
    (Example.tensor1 [0; 0; 0]%Q) =
    Raise (IndexError "index 0 is out of bounds for dimension 0 with size 0").
Proof.
  destruct (sparse_prediction_keeps_one_entry Example.E0
              (VDict [("spark_data_type", VClass "SparseVector"); ("shape", VInt 3)])
              (Example.tensor1 [0; 0; 0]%Q) eq_refl) as [_ H].
  apply H; [reflexivity|]. repeat constructor.
Defined.

(** X14: a prediction for a scalar label column whose Python type is
    [float] is not rounded: the field is the prediction itself. *)
Theorem float_prediction_is_kept (E : Env) (meta col_type : value) (pred : tensor)
    (x : pyfloat) :
  subscript_dict meta "spark_data_type" = Ok col_type ->
  is_class col_type "DenseVector" = false ->
  is_class col_type "SparseVector" = false ->
  spark_scalar_to_python_type E col_type = Ok PyFloat ->
  (tensor_data pred = [x] -> field_of E meta pred = Ok (VFloat x)) /\
  (length (tensor_data pred) <> 1%nat ->
   field_of E meta pred =
     Raise (ValueError "only one element tensors can be converted to Python scalars")).
Proof.
  intros Hty Hd Hs Hpy. unfold field_of. rewrite Hty. cbn [rbind]. rewrite Hd, Hs.
  unfold item. split.
  - intros ->. cbn [rbind]. rewrite Hpy. reflexivity.
  - intros Hlen. destruct (tensor_data pred) as [|a [|b l]]; try reflexivity.
    now contradiction Hlen.
Qed.

Lemma float_prediction_is_kept_witness :
  field_of Example.E0
    (VDict [("spark_data_type", VClass "DoubleType"); ("shape", VInt 1)])
    (Example.tensor1 [(27 # 10)%Q]) = Ok (VFloat (FFinite (27 # 10))).
Proof.
  apply (float_prediction_is_kept Example.E0
           (VDict [("spark_data_type", VClass "DoubleType"); ("shape", VInt 1)])
           (VClass "DoubleType")); reflexivity.
Defined.

(** ** Rows *)

Lemma dict_get_set (k k' : string) (v : value) (d : dict) :
  dict_get k' (dict_set k v d) = if String.eqb k' k then Some v else dict_get k' d.
Proof.
  destruct (String.eqb_spec k' k) as [->|Hne].
  - apply dict_get_set_eq.
  - apply dict_get_set_ne. congruence.
Qed.

Lemma dict_keys_set_incl (k k' : string) (v : value) (d : dict) :
  In k' (dict_keys d) -> In k' (dict_keys (dict_set k v d)).
Proof.
  intros Hin. destruct (dict_mem k d) eqn:Hk.
  - apply dict_mem_In in Hk. now rewrite dict_keys_set_present.
  - assert (~ In k (dict_keys d)) as Hnot.
    { intros H. apply dict_mem_In in H. congruence. }
    rewrite dict_keys_set_absent by exact Hnot. apply in_or_app. now left.
Qed.

Lemma set_output_fields_frame (E : Env) (metadata : value)
    (triples : list (value * value * tensor)) (fields out : dict) :
  set_output_fields E metadata triples fields = Ok out ->
  (forall k, In k (dict_keys fields) -> In k (dict_keys out)) /\
  (forall k, ~ In (VStr k) (map (fun tr => snd (fst tr)) triples) ->
             dict_get k out = dict_get k fields).
Proof.
  revert fields. induction triples as [|[[label_col output_col] pred] triples IH];
    intros fields H.
  - injection H as <-. auto.
  - cbn [set_output_fields] in H.
    destruct (subscript metadata label_col) as [meta|]; cbn [rbind] in H; [|discriminate].
    destruct (field_of E meta pred) as [field|]; cbn [rbind] in H; [|discriminate].
    destruct output_col; try discriminate.
    destruct (IH _ H) as [Hkeys Hget]. split.
    + intros k Hk. apply Hkeys. now apply dict_keys_set_incl.
    + intros k Hk. cbn [map fst snd] in Hk.
      rewrite Hget by (intros Hin; apply Hk; now right).
      rewrite dict_get_set. destruct (String.eqb_spec k s) as [->|]; [|reflexivity].
      exfalso. apply Hk. now left.
Qed.

Lemma result_map_length {A B : Type} (f : A -> result B) (l : list A) (l' : list B) :
  result_map f l = Ok l' -> length l' = length l.
Proof.
  revert l'. induction l as [|a l IH]; intros l' H.
  - now injection H as <-.
  - cbn [result_map] in H. destruct (f a) as [b|]; cbn [rbind] in H; [|discriminate].
    destruct (result_map f l) as [bs|]; cbn [rbind] in H; [|discriminate].
    injection H as <-. cbn. now rewrite (IH bs eq_refl).
Qed.

Lemma result_map_Forall2 {A B : Type} (f : A -> result B) (l : list A) (l' : list B) :
  result_map f l = Ok l' -> Forall2 (fun a b => f a = Ok b) l l'.
Proof.
  revert l'. induction l as [|a l IH]; intros l' H.
  - injection H as <-. constructor.
  - cbn [result_map] in H. destruct (f a) as [b|] eqn:Hb; cbn [rbind] in H; [|discriminate].
    destruct (result_map f l) as [bs|]; cbn [rbind] in H; [|discriminate].
    injection H as <-. constructor; [exact Hb|]. now apply IH.
Qed.

(** X15: the row that [predict] yields keeps every field of the input row:
    all its columns are still there, and a column that is not an output
    column has the value it had. *)
Theorem predict_row_keeps_the_fields (E : Env)
    (model feature_cols input_shapes label_cols output_cols metadata : value)
    (row out : dict) :
  predict_row E model feature_cols input_shapes label_cols output_cols metadata row = Ok out ->
  (forall k, In k (dict_keys row) -> In k (dict_keys out)) /\
  (forall k outputs,
     iterate output_cols = Ok outputs -> ~ In (VStr k) outputs ->
     dict_get k out = dict_get k row).
Proof.
  intros H. unfold predict_row in H.
  destruct (iterate feature_cols) as [cols|]; cbn [rbind] in H; [|discriminate].
  destruct (iterate input_shapes) as [shapes|]; cbn [rbind] in H; [|discriminate].
  destruct (result_map _ (combine cols shapes)) as [data|]; cbn [rbind] in H; [|discriminate].
  destruct (forward E model data) as [preds|]; cbn [rbind] in H; [|discriminate].
  destruct (iterate label_cols) as [labels|]; cbn [rbind] in H; [|discriminate].
  destruct (iterate output_cols) as [outputs|] eqn:Ho; cbn [rbind] in H; [|discriminate].
  apply set_output_fields_frame in H as [Hkeys Hget]. split; [exact Hkeys|].
  intros k outputs' [= <-] Hk. apply Hget. intros Hin. apply Hk.
  apply in_map_iff in Hin as ([[l o] p] & Ho' & Hin). cbn [fst snd] in Ho'. subst o.
  apply in_combine_l in Hin. now apply in_combine_r in Hin.
Qed.

(** X16: inference yields one row for each input row: [predict] answers as
    many rows as it is given, and [_transform] keeps the partitions and the
    number of rows of each. *)
Theorem transform_keeps_the_rows (E : Env) (self : Params) (df df' : list (list dict)) :
  _transform E self df = Ok df' ->
  map (@length dict) df' = map (@length dict) df.
Proof.
  intros H. unfold _transform in H.
  destruct (getModel self) as [m|]; cbn [rbind] in H; [|discriminate].
  destruct (eval_mode E m) as [m'|]; cbn [rbind] in H; [|discriminate].
  destruct (serialize E m') as [sm|]; cbn [rbind] in H; [|discriminate].
  destruct (getInputShapes self) as [ish|]; cbn [rbind] in H; [|discriminate].
  destruct (getLabelColumns self) as [lc|]; cbn [rbind] in H; [|discriminate].
  destruct (getOutputCols self) as [oc|]; cbn [rbind] in H; [|discriminate].
  destruct (getFeatureColumns self) as [fc|]; cbn [rbind] in H; [|discriminate].
  destruct (_get_metadata self) as [md|]; cbn [rbind] in H; [|discriminate].
  apply result_map_Forall2 in H.
  induction H as [|rows rows' df df' Hrows _ IH]; [reflexivity|].
  cbn [map]. rewrite IH. f_equal.
  unfold predict in Hrows. destruct (deserialize E sm) as [model|]; cbn [rbind] in Hrows;
    [|discriminate].
  now apply result_map_length in Hrows.
Qed.

Lemma predict_row_keeps_the_fields_witness :
  dict_get "x" Example.predicted0 = dict_get "x" Example.row0.
Proof.
  unfold Example.predicted0.
  destruct (predict_row Example.E0 (Example.obj "Net" 10) (VList [VStr "x"])
              (VList [VList [VInt 1]]) (VList [VStr "label"]) (VList [VStr "label__output"])
              Example.metadata0 Example.row0) as [out|e] eqn:H.
  - destruct (predict_row_keeps_the_fields Example.E0 _ _ _ _ _ _ _ _ H) as [_ Hget].
    apply (Hget "x" [VStr "label__output"]); [reflexivity|].
    intros [Hin|[]]. discriminate.
  - exfalso. vm_compute in H. discriminate.
Defined.

Lemma transform_keeps_the_rows_witness :
  map (@length dict) Example.transformed0 = map (@length dict) Example.df_rows0.
Proof.
  unfold Example.transformed0.
  destruct (_transform Example.E0 Example.trained0 Example.df_rows0) as [df|e] eqn:H.
  - exact (transform_keeps_the_rows Example.E0 _ _ _ H).
  - exfalso. vm_compute in H. discriminate.
Defined.

(** ** Persisted parameters, there and back *)

(** X17: with a codec that decodes what it encodes, reading back the
    entries written by [_torch_param_serialize] restores every parameter,
    except [backend] and [store], which come back as [None]. *)
Theorem persisted_parameters_round_trip (E : Env) (d sd : dict) :
  (forall v s, dumps_base64 E v = Ok s -> is_None s = false /\ loads_base64 E s = Ok v) ->
  NoDup (dict_keys d) ->
  result_map (serialize_entry E) d = Ok sd ->
  _deserialize_dict E sd =
    Ok (map (fun kv =>
               (fst kv,
                if existsb (String.eqb (fst kv)) ["backend"; "store"] then VNone
                else snd kv)) d).
Proof.
  intros Hcodec Hnd Hser.
  assert (dict_keys sd = dict_keys d /\
          result_map (decode_entry E) sd =
            Ok (map (fun kv =>
                       (fst kv,
                        if existsb (String.eqb (fst kv)) ["backend"; "store"] then VNone
                        else snd kv)) d)) as [Hkeys Hdec].
  { clear Hnd. revert sd Hser. induction d as [|[k v] d IH]; intros sd Hser.
    - injection Hser as <-. now split.
    - cbn [result_map] in Hser. unfold serialize_entry at 1 in Hser. cbn [fst snd] in Hser.
      destruct (_torch_param_serialize E k v) as [s|] eqn:Hs; cbn [rbind] in Hser;
        [|discriminate].
      destruct (result_map (serialize_entry E) d) as [sd'|]; cbn [rbind] in Hser;
        [|discriminate].
      injection Hser as <-. destruct (IH sd' eq_refl) as [Hk Hd]. split.
      + unfold dict_keys in *. cbn [map fst]. now f_equal.
      + cbn [result_map map fst snd]. rewrite Hd. unfold decode_entry at 1. cbn [fst snd].
        unfold _torch_param_serialize in Hs.
        destruct (existsb (String.eqb k) ["backend"; "store"]).
        * injection Hs as <-. reflexivity.
        * destruct (is_None v) eqn:Hv.
          -- injection Hs as <-. cbn [is_None rbind]. destruct v; try discriminate.
             reflexivity.
          -- destruct (Hcodec v s Hs) as [Hns Hl]. rewrite Hns, Hl. reflexivity. }
  unfold _deserialize_dict. rewrite _deserialize_items_entries.
  - rewrite Hdec. reflexivity.
  - cbn [dict_keys map app]. now rewrite Hkeys.
Qed.

Lemma persisted_parameters_round_trip_witness :
  _deserialize_dict Example.E0
    [("model", Example.wrap "b64" (VStr "net")); ("store", VNone); ("epochs", VNone)] =
  Ok [("model", VStr "net"); ("store", VNone); ("epochs", VNone)].
Proof.
  apply (persisted_parameters_round_trip Example.E0
           [("model", VStr "net"); ("store", Example.obj "Store" 1); ("epochs", VNone)]).
  - intros v s [= <-]. split; [reflexivity|].
    cbn. reflexivity.
  - apply nodup_keys_NoDup. reflexivity.
  - reflexivity.
Defined.

(** ** Optimizers, whatever happens *)

(** X18: [getOptimizer] never alters an optimizer that exists already,
    whether it succeeds or fails; and with a truthy model but no optimizer
    it raises [AttributeError] without creating anything. *)
Theorem getOptimizer_preserves_existing_optimizers (E : Env) (self : Params)
    (h : gmap nat optimizer_data) :
  (forall i x, h !! i = Some x -> snd (getOptimizer E self h) !! i = Some x) /\
  (forall model,
     getModel self = Ok model -> truthy model = true ->
     _get_optimizer self = Ok VNone ->
     getOptimizer E self h =
       (Raise (AttributeError "object has no attribute state_dict"), h)).
Proof.
  split.
  - intros i x Hx. unfold getOptimizer, bind, lift.
    destruct (getModel self) as [model|]; [|exact Hx].
    destruct (truthy model); [|now destruct (_get_optimizer self)].
    destruct (_get_optimizer self) as [optimizer|]; [|exact Hx].
    unfold state_dict at 1.
    destruct optimizer; try exact Hx.
    destruct (h !! obj_id o) as [d|]; [|exact Hx].
    destruct (parameters E model) as [params|]; [|exact Hx].
    unfold Optimizer_new. cbn [class_of].
    destruct (optimizer_init E (obj_class o) params 1) as [initial|]; [|exact Hx].
    set (id := fresh (dom h)).
    assert (h !! id = None) as Hfresh by (apply not_elem_of_dom, is_fresh).
    assert (id <> i) as Hne by congruence.
    unfold load_state_dict. cbn [obj_id obj_class]. rewrite lookup_insert_eq.
    cbn [optim_params].
    destruct (optimizer_accepts E (obj_class o) params (optim_state d)); cbn [snd].
    + unfold ret. cbn [snd]. now rewrite !lookup_insert_ne.
    + now rewrite lookup_insert_ne.
  - intros model Hm Ht Ho. unfold getOptimizer, bind, lift. now rewrite Hm, Ht, Ho.
Qed.

Lemma getOptimizer_preserves_existing_optimizers_witness :
  getOptimizer Example.E0 (Example.estimator_with (Example.obj "Net" 1) VNone) Example.heap0 =
    (Raise (AttributeError "object has no attribute state_dict"), Example.heap0).
Proof.
  apply (getOptimizer_preserves_existing_optimizers Example.E0
           (Example.estimator_with (Example.obj "Net" 1) VNone) Example.heap0)
    with (model := Example.obj "Net" 1).
  - vm_compute. reflexivity.
  - reflexivity.
  - vm_compute. reflexivity.
Defined.
